(** * django-on-aws: the [main] application models

    A shallow embedding of [src/app/main/models.py] (the Django models
    [Category] and [Item], the save-time derivation of slug and thumbnail,
    the view counter and the SES publish notification), together with the
    properties the specification states about them.

    Python values are modelled as follows.
    - [str] is a list of Unicode code points ([N]); [len] is [length].
    - A call that may raise returns a [Res]: [Ok v] or [Raise e].
    - Methods that mutate [self] and the outside world are functions from
      the object and the [World] to an outcome, the mutated object and the
      new world.  Side effects performed before an exception is raised
      survive it, as in Python.
    - Database tables are finite maps from primary key to row. *)

From Stdlib Require Import NArith ZArith List Bool Lia.
From Stdlib Require Import Strings.String Strings.Ascii.
From Stdlib Require Import DecimalString.
From stdpp Require Import base option gmap fin_maps.
Import ListNotations.

Open Scope bool_scope.
Open Scope N_scope.

(** ** Python strings *)

Definition str : Type := list N.

(** A Python string literal. *)
Definition py (s : string) : str := List.map N_of_ascii (list_ascii_of_string s).
Arguments py s%_string : simpl never.

Definition str_eqb (a b : str) : bool := bool_decide (a = b).

(** Truthiness of a [str]: only the empty string is false. *)
Definition str_truthy (s : str) : bool :=
  match s with [] => false | _ :: _ => true end.

Definition is_ascii (c : N) : bool := c <? 128.
Definition is_upper (c : N) : bool := (65 <=? c) && (c <=? 90).
Definition is_lower (c : N) : bool := (97 <=? c) && (c <=? 122).
Definition is_digit (c : N) : bool := (48 <=? c) && (c <=? 57).
Definition HYPHEN : N := 45.
Definition UNDERSCORE : N := 95.

(** [\w] of Python's [re] on an ASCII character. *)
Definition is_word (c : N) : bool :=
  is_lower c || is_upper c || is_digit c || (c =? UNDERSCORE).

(** [\s] of Python's [re] (and [str.isspace]) on an ASCII character:
    TAB, LF, VT, FF, CR, the separators FS, GS, RS, US, and SPACE. *)
Definition is_space (c : N) : bool :=
  ((9 <=? c) && (c <=? 13)) || ((28 <=? c) && (c <=? 32)).

(** [str.lower] on an ASCII string. *)
Definition lower_char (c : N) : N := if is_upper c then c + 32 else c.
Definition lower (s : str) : str := List.map lower_char s.

(** [str.lstrip(chars)], [str.rstrip(chars)], [str.strip(chars)], with the
    character set given as a predicate. *)
Fixpoint lstrip (p : N -> bool) (s : str) : str :=
  match s with
  | [] => []
  | c :: t => if p c then lstrip p t else s
  end.

Fixpoint rstrip (p : N -> bool) (s : str) : str :=
  match s with
  | [] => []
  | c :: t =>
      match rstrip p t with
      | [] => if p c then [] else [c]
      | r => c :: r
      end
  end.

Definition strip (p : N -> bool) (s : str) : str := rstrip p (lstrip p s).

(** ** Unicode character data

    The tables of Python's [unicodedata] and of the case mappings are not
    part of the repository; they are consulted only for non-ASCII code
    points and are taken as parameters. *)

Record UnicodeData : Type := {
  (** full compatibility decomposition of a non-ASCII code point *)
  ucd_decomposition : N -> list N;
  (** [str.title] on a string that has a non-ASCII character *)
  ucd_title : str -> str
}.

(** [unicodedata.normalize("NFKD", s)].  An ASCII character is its own
    decomposition.  The canonical reordering only permutes combining marks,
    none of which is ASCII, so it does not change what [encode_ascii_ignore]
    keeps and is left out. *)
Definition normalize_NFKD (ud : UnicodeData) (s : str) : str :=
  List.flat_map (fun c => if is_ascii c then [c] else ucd_decomposition ud c) s.

(** [s.encode("ascii", "ignore").decode("ascii")] *)
Definition encode_ascii_ignore (s : str) : str := List.filter is_ascii s.

(** ** django.utils.text.slugify *)

(** The two published behaviours of [slugify]: before Django 3.2 the
    filtered text is stripped of surrounding whitespace; from Django 3.2 the
    result is stripped of surrounding dashes and underscores. *)
Inductive SlugifyRelease : Type := StripsWhitespace | StripsDashes.

Definition is_sep (c : N) : bool := (c =? HYPHEN) || is_space c.
Definition is_dash_or_underscore (c : N) : bool := (c =? HYPHEN) || (c =? UNDERSCORE).

(** [re.sub] of the pattern [[^\w\s-]] by the empty string *)
Definition re_sub_drop (s : str) : str :=
  List.filter (fun c => is_word c || is_space c || (c =? HYPHEN)) s.

(** [re.sub] of the pattern [[-\s]+] by one hyphen; [in_run] tells that the previous character
    belonged to the run that is being replaced. *)
Fixpoint re_sub_collapse (in_run : bool) (s : str) : str :=
  match s with
  | [] => []
  | c :: t =>
      if is_sep c
      then (if in_run then re_sub_collapse true t else HYPHEN :: re_sub_collapse true t)
      else c :: re_sub_collapse false t
  end.

(** Modelled from the spec: [slugify] is imported from the web framework and
    is not under src/.  The spec describes it as "lowercase, ASCII-folded,
    hyphen-separated, framework-standard slugify semantics", which is
    [django.utils.text.slugify(value)] with [allow_unicode=False]:
    NFKD-normalise, keep the ASCII characters, lower-case, remove what is
    not a word character, whitespace or a hyphen, and replace every run of
    hyphens and whitespace by one hyphen. *)
Definition slugify (ud : UnicodeData) (rel : SlugifyRelease) (value : str) : str :=
  let value := encode_ascii_ignore (normalize_NFKD ud value) in
  match rel with
  | StripsWhitespace =>
      re_sub_collapse false (strip is_space (re_sub_drop (lower value)))
  | StripsDashes =>
      strip is_dash_or_underscore (re_sub_collapse false (re_sub_drop (lower value)))
  end.

(** *** The shape of a slug *)

(** What [re_sub_drop] leaves of a lower-cased text. *)
Definition kept_lower (c : N) : bool :=
  (is_word c || is_space c || (c =? HYPHEN)) && negb (is_upper c).

Definition slug_char (c : N) : bool :=
  is_lower c || is_digit c || (c =? UNDERSCORE) || (c =? HYPHEN).

Fixpoint no_double_hyphen (s : str) : bool :=
  match s with
  | a :: (b :: _) as t => negb ((a =? HYPHEN) && (b =? HYPHEN)) && no_double_hyphen t
  | _ => true
  end.

(** Lower-case words of letters, digits and underscores, separated by single
    hyphens. *)
Definition hyphenated (s : str) : bool :=
  forallb slug_char s && no_double_hyphen s.

(** A slug as a URL has it: hyphenated, and neither starting nor ending
    with a hyphen or an underscore. *)
Definition slug_shaped (s : str) : bool :=
  hyphenated s
  && negb (is_dash_or_underscore (List.hd 0 s))
  && negb (is_dash_or_underscore (List.last s 0)).


(** ** str.title *)

Definition upper_char (c : N) : N := if is_lower c then c - 32 else c.
Definition is_cased (c : N) : bool := is_upper c || is_lower c.

(** The loop of [str.title] on ASCII text: a character that follows a cased
    character is lower-cased, any other is upper-cased. *)
Fixpoint title_from (previous_is_cased : bool) (s : str) : str :=
  match s with
  | [] => []
  | c :: t =>
      (if previous_is_cased then lower_char c else upper_char c)
        :: title_from (is_cased c) t
  end.

Definition title (ud : UnicodeData) (s : str) : str :=
  if forallb is_ascii s then title_from false s else ucd_title ud s.

(** ** json.dumps of a dict of strings *)

Definition QUOTE : N := 34.
Definition BACKSLASH : N := 92.

Definition hex_digit (n : N) : N := if n <? 10 then 48 + n else 87 + n.

(** ['\\u{0:04x}'.format(n)] *)
Definition u_escape (n : N) : str :=
  [BACKSLASH; 117; hex_digit (n / 4096 mod 16); hex_digit (n / 256 mod 16);
   hex_digit (n / 16 mod 16); hex_digit (n mod 16)].

(** The replacement of one character by [json.encoder.py_encode_basestring_ascii]
    ([ensure_ascii=True], the default of [json.dumps]). *)
Definition json_escape_char (c : N) : str :=
  if c =? QUOTE then [BACKSLASH; QUOTE]
  else if c =? BACKSLASH then [BACKSLASH; BACKSLASH]
  else if c =? 8 then [BACKSLASH; 98]
  else if c =? 12 then [BACKSLASH; 102]
  else if c =? 10 then [BACKSLASH; 110]
  else if c =? 13 then [BACKSLASH; 114]
  else if c =? 9 then [BACKSLASH; 116]
  else if (32 <=? c) && (c <=? 126) then [c]
  else if c <? 65536 then u_escape c
  else u_escape (55296 + (c - 65536) / 1024) ++ u_escape (56320 + (c - 65536) mod 1024).

Definition json_string (s : str) : str :=
  [QUOTE] ++ List.flat_map json_escape_char s ++ [QUOTE].

(** [sep.join(l)] *)
Fixpoint join (sep : str) (l : list str) : str :=
  match l with
  | [] => []
  | [x] => x
  | x :: t => x ++ sep ++ join sep t
  end.

(** [json.dumps(d)] for a dict [d] whose keys and values are strings, given
    in insertion order. *)
Definition json_dumps (d : list (str * str)) : str :=
  py "{" ++ join (py ", ") (List.map (fun kv => json_string (fst kv) ++ py ": " ++ json_string (snd kv)) d)
  ++ py "}".

(** [d.get(key)] *)
Fixpoint dict_get (key : str) (d : list (str * str)) : option str :=
  match d with
  | [] => None
  | (k, v) :: t => if str_eqb k key then Some v else dict_get key t
  end.

(** ** Exceptions and results *)

(** An instance of Python's [Exception]: its class and what [repr] prints. *)
Record Exception : Type := { exc_type : str; exc_repr : str }.

Inductive Res (A : Type) : Type :=
| Ok (a : A)
| Raise (e : Exception).
Arguments Ok {A} a.
Arguments Raise {A} e.

Definition is_ok {A} (r : Res A) : bool :=
  match r with Ok _ => true | Raise _ => false end.

(** [ValueError(message)]; the messages raised here have a single quote in
    them, so that [repr] prints them between double quotes. *)
Definition ValueError (message : str) : Exception :=
  {| exc_type := py "ValueError";
     exc_repr := py "ValueError(" ++ [QUOTE] ++ message ++ [QUOTE] ++ py ")" |}.

(** ** pathlib, POSIX flavour *)

Definition SLASH : N := 47.
Definition DOT : N := 46.

(** [s.split(sep)] for a one-character separator *)
Fixpoint split (sep : N) (s : str) : list str :=
  match s with
  | [] => [[]]
  | c :: t =>
      if c =? sep then [] :: split sep t
      else match split sep t with
           | [] => [[c]]
           | h :: r => (c :: h) :: r
           end
  end.

(** A parsed path: the root and the components after it. *)
Record PurePath : Type := { root : str; parts : list str }.

(** [Path(s)]: exactly two leading slashes are kept as the root, any other
    positive number is one slash; empty components and ["."] are dropped. *)
Definition Path (s : str) : PurePath :=
  let stripped := lstrip (N.eqb SLASH) s in
  let leading := (length s - length stripped)%nat in
  {| root := if Nat.eqb leading 0 then []
             else if Nat.eqb leading 2 then [SLASH; SLASH] else [SLASH];
     parts := List.filter (fun x => negb (str_eqb x [] || str_eqb x [DOT]))
                (split SLASH stripped) |}.

(** [str(p)] *)
Definition Path_str (p : PurePath) : str :=
  match root p, parts p with
  | [], [] => [DOT]
  | r, ps => r ++ join [SLASH] ps
  end.

(** [p.name] *)
Definition Path_name (p : PurePath) : str := List.last (parts p) [].

(** [s.rfind(c)]; [None] is Python's [-1]. *)
Fixpoint rfind (c : N) (s : str) : option nat :=
  match s with
  | [] => None
  | x :: t =>
      match rfind c t with
      | Some i => Some (S i)
      | None => if x =? c then Some O else None
      end
  end.

(** [p.suffix], from the final component [name] *)
Definition suffix (name : str) : str :=
  match rfind DOT name with
  | Some i => if Nat.ltb 0 i && Nat.ltb i (length name - 1) then skipn i name else []
  | None => []
  end.

(** [p.with_suffix(sfx)] *)
Definition with_suffix (p : PurePath) (sfx : str) : Res PurePath :=
  if existsb (N.eqb SLASH) sfx
     || (str_truthy sfx && negb (N.eqb (List.hd 0 sfx) DOT))
     || str_eqb sfx [DOT]
  then Raise (ValueError (py "Invalid suffix '" ++ sfx ++ py "'"))
  else
    let name := Path_name p in
    if negb (str_truthy name)
    then Raise (ValueError (py "PosixPath('" ++ Path_str p ++ py "') has an empty name"))
    else
      let old_suffix := suffix name in
      let name' :=
        if negb (str_truthy old_suffix) then name ++ sfx
        else firstn (length name - length old_suffix) name ++ sfx in
      Ok {| root := root p; parts := removelast (parts p) ++ [name'] |}.

(** ** Formatting in f-strings *)

(** [str(n)] for an [int]: the decimal digits, after a minus sign for a
    negative number. *)
Definition int_str (n : Z) : str := py (NilEmpty.string_of_int (Z.to_int n)).

(** [str(pk)] for a primary key that may be [None]. *)
Definition optional_int_str (pk : option Z) : str :=
  match pk with
  | Some n => int_str n
  | None => py "None"
  end.

(** Characters from the space to the tilde. *)
Definition is_printable (c : N) : bool := (32 <=? c)%N && (c <=? 126)%N.

(** No two slashes in a row. *)
Fixpoint no_double_slash (s : str) : bool :=
  match s with
  | a :: (b :: _) as t => negb ((a =? SLASH)%N && (b =? SLASH)%N) && no_double_slash t
  | _ => true
  end.

(** A component of a path: not empty, and without slash. *)
Definition is_component (x : str) : bool :=
  str_truthy x && negb (existsb (fun c => c =? SLASH)%N x).

(** ** Files of image fields *)

Module FieldFile.

(** The value of an [ImageField] attribute.  [name] is the path of the
    file in the storage; the empty name means that no file is set (the
    declared default of [Item.image_thumbnail] is the empty name). *)
Record t : Type := { name : str }.

(** [file.url]: raises [ValueError] when no file is set, otherwise asks
    the storage for the URL of [name]. *)
Definition url (storage_url : str -> str) (field : str) (f : t) : Res str :=
  if str_truthy (name f) then Ok (storage_url (name f))
  else Raise (ValueError
                (py "The '" ++ field ++ py "' attribute has no file associated with it.")).

End FieldFile.

(** ** Rows and objects *)

Open Scope Z_scope.

Module User.
Record t : Type := { username : str; email : str }.
End User.

Module CategoryFields.

(** [category_name = CharField(max_length=200, unique=True)] and
    [category_slug = SlugField(max_length=50, unique=True)] *)
Definition category_name_max_length : nat := 200.
Definition category_slug_max_length : nat := 50.

Record t : Type := {
  id : option Z;
  category_name : str;
  summary : str;
  image : FieldFile.t;
  category_slug : str
}.

Definition set_id (v : option Z) (c : t) : t :=
  {| id := v; category_name := category_name c; summary := summary c;
     image := image c; category_slug := category_slug c |}.
Definition set_image (v : FieldFile.t) (c : t) : t :=
  {| id := id c; category_name := category_name c; summary := summary c;
     image := v; category_slug := category_slug c |}.
Definition set_category_slug (v : str) (c : t) : t :=
  {| id := id c; category_name := category_name c; summary := summary c;
     image := image c; category_slug := v |}.

End CategoryFields.

Module ItemFields.

(** [item_name = CharField(max_length=200, unique=True)],
    [summary = CharField(max_length=200)],
    [item_slug = SlugField(max_length=50, unique=True)] and
    [category_name = ForeignKey(Category, default=1, on_delete=SET_DEFAULT)] *)
Definition item_name_max_length : nat := 200.
Definition summary_max_length : nat := 200.
Definition item_slug_max_length : nat := 50.
Definition category_name_default : Z := 1.

Record t : Type := {
  id : option Z;
  item_name : str;
  summary : str;
  image : FieldFile.t;
  image_thumbnail : FieldFile.t;
  content : str;
  date_published : Z;
  item_slug : str;
  (** the primary key of the referenced [Category] *)
  category_name : Z;
  views : Z
}.

Definition set_id (v : option Z) (i : t) : t :=
  {| id := v; item_name := item_name i; summary := summary i; image := image i;
     image_thumbnail := image_thumbnail i; content := content i;
     date_published := date_published i; item_slug := item_slug i;
     category_name := category_name i; views := views i |}.
Definition set_image_thumbnail (v : FieldFile.t) (i : t) : t :=
  {| id := id i; item_name := item_name i; summary := summary i; image := image i;
     image_thumbnail := v; content := content i;
     date_published := date_published i; item_slug := item_slug i;
     category_name := category_name i; views := views i |}.
Definition set_item_slug (v : str) (i : t) : t :=
  {| id := id i; item_name := item_name i; summary := summary i; image := image i;
     image_thumbnail := image_thumbnail i; content := content i;
     date_published := date_published i; item_slug := v;
     category_name := category_name i; views := views i |}.
Definition set_category_name (v : Z) (i : t) : t :=
  {| id := id i; item_name := item_name i; summary := summary i; image := image i;
     image_thumbnail := image_thumbnail i; content := content i;
     date_published := date_published i; item_slug := item_slug i;
     category_name := v; views := views i |}.
Definition set_views (v : Z) (i : t) : t :=
  {| id := id i; item_name := item_name i; summary := summary i; image := image i;
     image_thumbnail := image_thumbnail i; content := content i;
     date_published := date_published i; item_slug := item_slug i;
     category_name := category_name i; views := v |}.

End ItemFields.

(** ** The email service *)

(** One element of [Destinations]. *)
Record Destination : Type := {
  ToAddresses : list str;
  ReplacementTemplateData : str
}.

(** The keyword arguments of [send_bulk_templated_email]. *)
Record SesRequest : Type := {
  Source : str;
  SourceArn : str;
  ReplyToAddresses : list str;
  DefaultTags : list str;
  Template : str;
  DefaultTemplateData : str;
  Destinations : list Destination
}.

(** ** The outside world *)

Inductive LogLevel : Type := INFO | ERROR.

(** What the code does to the outside, in the order it happens. *)
Inductive Event : Type :=
| EvDbWrite (table : str) (pk : Z)
| EvDbDelete (table : str) (pk : Z)
| EvBoto3Client (service : str)
| EvSendBulk (request : SesRequest)
| EvLog (level : LogLevel) (message : str).

Record World : Type := {
  db_categories : gmap Z CategoryFields.t;
  db_items : gmap Z ItemFields.t;
  db_users : list User.t;
  trace : list Event
}.

Definition set_db_categories (m : gmap Z CategoryFields.t) (w : World) : World :=
  {| db_categories := m; db_items := db_items w; db_users := db_users w; trace := trace w |}.
Definition set_db_items (m : gmap Z ItemFields.t) (w : World) : World :=
  {| db_categories := db_categories w; db_items := m; db_users := db_users w; trace := trace w |}.
Definition add_event (ev : Event) (w : World) : World :=
  {| db_categories := db_categories w; db_items := db_items w; db_users := db_users w;
     trace := trace w ++ [ev] |}.

(** What the models get from their environment: configuration, the image
    helper of the mixin, the file storage, the database backend, the AWS
    client and the Unicode tables. *)
Record Env : Type := {
  unicode : UnicodeData;
  slugify_release : SlugifyRelease;
  (** [app.config.SES_IDENTITY_ARN]; [None] when it is not configured *)
  SES_IDENTITY_ARN : option str;
  (** [BaseModelMixin.resize_image(image, suffix=...)]; the second argument
      is [None] when the call leaves [suffix] to its default *)
  resize_image : FieldFile.t -> option str -> Res FieldFile.t;
  (** [storage.url(name)] *)
  storage_url : str -> str;
  (** whether the database rejects a string longer than its column *)
  enforces_max_length : bool;
  (** [boto3.client(service)] *)
  boto3_client : str -> Res unit;
  (** the answer of the service to [send_bulk_templated_email] called with the request,
      printed as by [str] *)
  send_bulk_templated_email : SesRequest -> Res str
}.

(** ** Methods: state and exceptions *)

(** A method of an object of type [O] returning an [A]. *)
Definition M (O A : Type) : Type := O -> World -> Res A * O * World.

Definition ret {O A} (a : A) : M O A := fun self w => (Ok a, self, w).

Definition bind {O A B} (m : M O A) (k : A -> M O B) : M O B :=
  fun self w =>
    match m self w with
    | (Ok a, self', w') => k a self' w'
    | (Raise e, self', w') => (Raise e, self', w')
    end.

Notation "x <- m ;; k" := (bind m (fun x => k))
  (at level 100, m at next level, right associativity).
Notation "m ;; k" := (bind m (fun _ => k))
  (at level 100, right associativity).

(** [self.field] *)
Definition attr {O A} (field : O -> A) : M O A := fun self w => (Ok (field self), self, w).
(** [self.field = v] *)
Definition assign {O} (set : O -> O) : M O unit := fun self w => (Ok tt, set self, w).
(** a call that can raise and touches neither [self] nor the world *)
Definition lift {O A} (r : Res A) : M O A := fun self w => (r, self, w).
Definition emit {O} (ev : Event) : M O unit := fun self w => (Ok tt, self, add_event ev w).
(** [try: body  except Exception as e: handler(e)] *)
Definition try_except {O A} (body : M O A) (handler : Exception -> M O A) : M O A :=
  fun self w =>
    match body self w with
    | (Raise e, self', w') => handler e self' w'
    | r => r
    end.

(** A list comprehension whose element expression can raise. *)
Fixpoint comprehension {O A B} (f : A -> M O B) (l : list A) : M O (list B) :=
  match l with
  | [] => ret []
  | x :: t => y <- f x ;; ys <- comprehension f t ;; ret (y :: ys)
  end.

Definition logger_info {O} (message : str) : M O unit := emit (EvLog INFO message).
Definition logger_error {O} (message : str) : M O unit := emit (EvLog ERROR message).

(** ** The database layer of the framework *)

Definition IntegrityError (message : str) : Exception :=
  {| exc_type := py "IntegrityError";
     exc_repr := py "IntegrityError('" ++ message ++ py "')" |}.
Definition DataError (message : str) : Exception :=
  {| exc_type := py "DataError";
     exc_repr := py "DataError('" ++ message ++ py "')" |}.
Definition AssertionError (message : str) : Exception :=
  {| exc_type := py "AssertionError";
     exc_repr := py "AssertionError(" ++ [QUOTE] ++ message ++ [QUOTE] ++ py ")" |}.
Definition RelatedObjectDoesNotExist (message : str) : Exception :=
  {| exc_type := py "RelatedObjectDoesNotExist";
     exc_repr := py "RelatedObjectDoesNotExist('" ++ message ++ py "')" |}.

(** A [unique=True] column: no row other than the one with primary key
    [pk] holds the value [v]. *)
Definition is_unique {R} (column : R -> str) (pk : option Z) (v : str)
    (table : gmap Z R) : bool :=
  forallb (fun kr => negb (str_eqb (column (snd kr)) v)
                     || match pk with Some i => Z.eqb (fst kr) i | None => false end)
          (map_to_list table).

(** The next value of an [AutoField]. *)
Definition next_pk {R} (table : gmap Z R) : Z :=
  1 + map_fold (fun k _ acc => Z.max k acc) 0 table.

Definition too_long (max_length : nat) (v : str) : bool := Nat.ltb max_length (length v).

Definition THUMBNAIL_SUFFIX : str := py "_resized".

Module Category.
Import CategoryFields.

(** Modelled from the spec: the database behind [super().save()] is not
    under src/.  The spec has a save fail "if name or slug collides with
    an existing row (uniqueness violation)", the failure being "surfaced to
    the caller (framework-level constraint error)".  A string longer than
    the declared [max_length] of its column is refused where the backend
    enforces the length. *)
Definition violation (env : Env) (self : t) (w : World) : option Exception :=
  if enforces_max_length env
     && (too_long category_name_max_length (category_name self)
         || too_long category_slug_max_length (category_slug self))
  then Some (DataError (py "value too long for type character varying"))
  else if negb (is_unique category_name (id self) (category_name self) (db_categories w))
  then Some (IntegrityError (py "duplicate key value violates unique constraint on category_name"))
  else if negb (is_unique category_slug (id self) (category_slug self) (db_categories w))
  then Some (IntegrityError (py "duplicate key value violates unique constraint on category_slug"))
  else None.

(** [super().save()]: the framework writes the row, under the primary key
    of the object or under a new one, unless a constraint is broken. *)
Definition Model_save (env : Env) : M t unit := fun self w =>
  match violation env self w with
  | Some e => (Raise e, self, w)
  | None =>
      let pk := default (next_pk (db_categories w)) (id self) in
      let self' := set_id (Some pk) self in
      (Ok tt, self',
       add_event (EvDbWrite (py "main_category") pk)
         (set_db_categories (<[pk := self']> (db_categories w)) w))
  end.

Definition save (env : Env) : M t unit :=
  image <- attr image ;;
  resized <- lift (resize_image env image None) ;;
  assign (set_image resized) ;;
  category_name <- attr category_name ;;
  assign (set_category_slug (slugify (unicode env) (slugify_release env) category_name)) ;;
  Model_save env.

Definition __str__ (self : t) : str := category_name self.

Definition __repr__ (self : t) : str :=
  py "Category=(id=" ++ optional_int_str (id self)
  ++ py ",category_name=" ++ category_name self
  ++ py ",category_slug=" ++ category_slug self ++ py ")".

(** Modelled from the spec: [Category] defines no [delete]; deleting is the
    framework's [Model.delete], which is not under src/.  The spec says
    that on Category deletion an Item "falls back to a default Category
    rather than cascading delete", which is the declared
    [on_delete=SET_DEFAULT] with [default=1]: the rows of [Item] that
    reference the category get the default reference, the row of the
    category is removed, and the whole deletion is refused, leaving the
    database as it was, when a rewritten reference would point to no
    row. *)
Definition delete : M t unit := fun self w =>
  match id self with
  | None =>
      (Raise (AssertionError
                (py "Category object can't be deleted because its id attribute is set to None.")),
       self, w)
  | Some pk =>
      let referenced :=
        existsb (fun kr => Z.eqb (ItemFields.category_name (snd kr)) pk)
                (map_to_list (db_items w)) in
      let items' :=
        (fun i => if Z.eqb (ItemFields.category_name i) pk
                  then ItemFields.set_category_name ItemFields.category_name_default i
                  else i) <$> db_items w in
      let categories' := base.delete pk (db_categories w) in
      if referenced && negb (bool_decide (is_Some (categories' !! ItemFields.category_name_default)))
      then (Raise (IntegrityError (py "foreign key constraint on category_name_id")), self, w)
      else (Ok tt, set_id None self,
            add_event (EvDbDelete (py "main_category") pk)
              (set_db_items items' (set_db_categories categories' w)))
  end.

End Category.

Module Item.
Import ItemFields.

(** Modelled from the spec: as for [Category], with the three declared
    lengths, the two unique columns and the reference to a category, which
    has to exist. *)
Definition violation (env : Env) (self : t) (w : World) : option Exception :=
  if enforces_max_length env
     && (too_long item_name_max_length (item_name self)
         || too_long summary_max_length (summary self)
         || too_long item_slug_max_length (item_slug self))
  then Some (DataError (py "value too long for type character varying"))
  else if negb (is_unique item_name (id self) (item_name self) (db_items w))
  then Some (IntegrityError (py "duplicate key value violates unique constraint on item_name"))
  else if negb (is_unique item_slug (id self) (item_slug self) (db_items w))
  then Some (IntegrityError (py "duplicate key value violates unique constraint on item_slug"))
  else if negb (bool_decide (is_Some (db_categories w !! category_name self)))
  then Some (IntegrityError (py "foreign key constraint on category_name_id"))
  else None.

(** [super().save()] *)
Definition Model_save (env : Env) : M t unit := fun self w =>
  match violation env self w with
  | Some e => (Raise e, self, w)
  | None =>
      let pk := default (next_pk (db_items w)) (id self) in
      let self' := set_id (Some pk) self in
      (Ok tt, self',
       add_event (EvDbWrite (py "main_item") pk)
         (set_db_items (<[pk := self']> (db_items w)) w))
  end.

(** [self.category_name]: the referenced row *)
Definition related_category : M t CategoryFields.t := fun self w =>
  match db_categories w !! category_name self with
  | Some c => (Ok c, self, w)
  | None => (Raise (RelatedObjectDoesNotExist (py "Item has no category_name.")), self, w)
  end.

(** [User.objects.all()] *)
Definition User_objects_all : M t (list User.t) := fun self w => (Ok (db_users w), self, w).

(** The dict given to [json.dumps] for one user. *)
Definition template_data (env : Env) (user : User.t) : M t (list (str * str)) :=
  item_name <- attr item_name ;;
  category <- related_category ;;
  item_slug <- attr item_slug ;;
  image_thumbnail <- attr image_thumbnail ;;
  url <- lift (FieldFile.url (storage_url env) (py "image_thumbnail") image_thumbnail) ;;
  stem <- lift (with_suffix (Path url) []) ;;
  ret [ (py "base_url", py "https://tari.kitchen");
        (py "item_name", item_name);
        (py "item_url_path",
           py "/items/" ++ CategoryFields.category_slug category ++ py "/" ++ item_slug);
        (py "recette_image_url_path", Path_str stem ++ THUMBNAIL_SUFFIX ++ py ".jpg");
        (py "username", title (unicode env) (User.username user));
        (py "email", User.email user) ].

(** One element of the list comprehension [destinations]. *)
Definition destination (env : Env) (user : User.t) : M t Destination :=
  data <- template_data env user ;;
  ret {| ToAddresses := [User.email user];
         ReplacementTemplateData := json_dumps data |}.

(** Truth value of [SES_IDENTITY_ARN]. *)
Definition arn_set (env : Env) : bool :=
  match SES_IDENTITY_ARN env with
  | Some arn => str_truthy arn
  | None => false
  end.

Definition bulk_request (env : Env) (destinations : list Destination) : SesRequest :=
  {| Source := py "tari-alerts@tari.kitchen";
     SourceArn := default [] (SES_IDENTITY_ARN env);
     ReplyToAddresses := [];
     DefaultTags := [];
     Template := py "ItemCreatedNotification";
     DefaultTemplateData := py "{ " ++ [QUOTE] ++ py "base_url" ++ [QUOTE] ++ py ":"
                            ++ [QUOTE] ++ py "https://tari.kitchen" ++ [QUOTE] ++ py " }";
     Destinations := destinations |}.

(** [ses_client.send_bulk_templated_email(...)] *)
Definition ses_send (env : Env) (request : SesRequest) : M t str :=
  emit (EvSendBulk request) ;;
  lift (send_bulk_templated_email env request).

Definition notify_registered_users (env : Env) : M t unit :=
  emit (EvBoto3Client (py "ses")) ;;
  ses_client <- lift (boto3_client env (py "ses")) ;;
  users <- User_objects_all ;;
  destinations <- comprehension (destination env) users ;;
  if negb (arn_set env) then
    logger_info (py "SES_IDENTITY_ARN not set, therefore email notifications are disabled.")
  else
    try_except
      (response <- ses_send env (bulk_request env destinations) ;;
       logger_info (py "SES notification was successful. response: " ++ response))
      (fun ses_err =>
         logger_error (py "Failed to send SES email notification: " ++ exc_repr ses_err)).

Definition save (env : Env) : M t unit :=
  image <- attr image ;;
  thumbnail <- lift (resize_image env image (Some THUMBNAIL_SUFFIX)) ;;
  assign (set_image_thumbnail thumbnail) ;;
  item_name <- attr item_name ;;
  assign (set_item_slug (slugify (unicode env) (slugify_release env) item_name)) ;;
  Model_save env ;;
  notify_registered_users env.

Definition increment_views (env : Env) : M t unit :=
  assign (fun self => set_views (views self + 1) self) ;;
  save env.

Definition __str__ (self : t) : str := item_name self.

Definition __repr__ (self : t) : str :=
  py "Item=(id=" ++ optional_int_str (id self)
  ++ py ",item_name=" ++ item_name self
  ++ py ",item_slug=" ++ item_slug self ++ py ")".

End Item.

(** ** Observing a run *)

Definition add_events (evs : list Event) (w : World) : World :=
  {| db_categories := db_categories w; db_items := db_items w; db_users := db_users w;
     trace := trace w ++ evs |}.

(** The events that happened between the world [w] and the later world [w']. *)
Definition new_events (w w' : World) : list Event :=
  skipn (length (trace w)) (trace w').

(** [notify_registered_users] starts by creating the SES client: one such
    event is one invocation of the notifier. *)
Definition is_notifier_invocation (ev : Event) : bool :=
  match ev with EvBoto3Client _ => true | _ => false end.

(** A request sent to the email service. *)
Definition is_ses_call (ev : Event) : bool :=
  match ev with EvSendBulk _ => true | _ => false end.

(** Anything the notifier does. *)
Definition is_notification_event (ev : Event) : bool :=
  match ev with
  | EvBoto3Client _ | EvSendBulk _ | EvLog _ _ => true
  | EvDbWrite _ _ | EvDbDelete _ _ => false
  end.

Definition count_events (p : Event -> bool) (evs : list Event) : nat :=
  length (List.filter p evs).

(** The value of the list comprehension [destinations] for the object
    [self] in the world [w]. *)
Definition destinations_of (env : Env) (self : ItemFields.t) (w : World)
    : Res (list Destination) :=
  fst (fst (comprehension (Item.destination env) (db_users w) self w)).

(** The outcome and the events of [notify_registered_users], spelled out. *)
Definition notifier_run (env : Env) (self : ItemFields.t) (w : World)
    : Res unit * list Event :=
  match boto3_client env (py "ses") with
  | Raise e => (Raise e, [EvBoto3Client (py "ses")])
  | Ok _ =>
      match destinations_of env self w with
      | Raise e => (Raise e, [EvBoto3Client (py "ses")])
      | Ok destinations =>
          if Item.arn_set env then
            let request := Item.bulk_request env destinations in
            match send_bulk_templated_email env request with
            | Ok response =>
                (Ok tt, [EvBoto3Client (py "ses"); EvSendBulk request;
                         EvLog INFO (py "SES notification was successful. response: " ++ response)])
            | Raise e =>
                (Ok tt, [EvBoto3Client (py "ses"); EvSendBulk request;
                         EvLog ERROR (py "Failed to send SES email notification: " ++ exc_repr e)])
            end
          else
            (Ok tt, [EvBoto3Client (py "ses");
                     EvLog INFO (py "SES_IDENTITY_ARN not set, therefore email notifications are disabled.")])
      end
  end.

(** The object that [Item.save] hands to the database. *)
Definition derived (env : Env) (thumbnail : FieldFile.t) (self : ItemFields.t) : ItemFields.t :=
  ItemFields.set_item_slug
    (slugify (unicode env) (slugify_release env) (ItemFields.item_name self))
    (ItemFields.set_image_thumbnail thumbnail self).

(** ** A concrete deployment, for examples *)

Module Sample.

Definition tables : UnicodeData :=
  {| ucd_decomposition := fun _ => []; ucd_title := fun s => s |}.

(** An image helper that names the result after the text before the
    first dot of the image name, the suffix and [.jpg], and that hands an
    unset image back as it is. *)
Definition resize (image : FieldFile.t) (suffix : option str) : Res FieldFile.t :=
  if str_truthy (FieldFile.name image)
  then Ok {| FieldFile.name :=
               List.hd [] (split DOT (FieldFile.name image)) ++ default [] suffix ++ py ".jpg" |}
  else Ok image.

Definition NoRegionError : Exception :=
  {| exc_type := py "NoRegionError";
     exc_repr := py "NoRegionError('You must specify a region.')" |}.
Definition ClientError : Exception :=
  {| exc_type := py "ClientError";
     exc_repr := py "ClientError('An error occurred (MessageRejected) when calling the SendBulkTemplatedEmail operation')" |}.

(** A deployment with the given identity, client factory and service. *)
Definition env (arn : option str) (client : str -> Res unit)
    (service : SesRequest -> Res str) : Env :=
  {| unicode := tables;
     slugify_release := StripsDashes;
     SES_IDENTITY_ARN := arn;
     resize_image := resize;
     storage_url := fun name => py "/media/" ++ name;
     enforces_max_length := true;
     boto3_client := client;
     send_bulk_templated_email := service |}.

Definition arn : str := py "arn:aws:ses:eu-west-2:123456789012:identity/tari.kitchen".

(** identity configured, files served from another host *)
Definition env_cdn : Env :=
  {| unicode := tables;
     slugify_release := StripsDashes;
     SES_IDENTITY_ARN := Some arn;
     resize_image := resize;
     storage_url := fun name => py "https://cdn.example.org/" ++ name;
     enforces_max_length := true;
     boto3_client := fun _ => Ok tt;
     send_bulk_templated_email := fun _ => Ok (py "{'Status': [{'Status': 'Success'}]}") |}.


(** identity configured, service refusing the request *)
Definition env_ses_down : Env :=
  env (Some arn) (fun _ => Ok tt) (fun _ => Raise ClientError).
(** identity configured, service accepting the request *)
Definition env_ses_up : Env :=
  env (Some arn) (fun _ => Ok tt) (fun _ => Ok (py "{'Status': [{'Status': 'Success'}]}")).
(** no identity configured *)
Definition env_no_identity : Env :=
  env None (fun _ => Ok tt) (fun _ => Raise ClientError).
(** no identity and no AWS region configured *)
Definition env_no_region : Env :=
  env None (fun _ => Raise NoRegionError) (fun _ => Raise ClientError).

Definition soups : CategoryFields.t :=
  {| CategoryFields.id := Some 1;
     CategoryFields.category_name := py "Soups";
     CategoryFields.summary := py "Warm bowls";
     CategoryFields.image := {| FieldFile.name := py "uploads/soups.jpg" |};
     CategoryFields.category_slug := py "soups" |}.

Definition salads : CategoryFields.t :=
  {| CategoryFields.id := Some 2;
     CategoryFields.category_name := py "Salads";
     CategoryFields.summary := py "Cold plates";
     CategoryFields.image := {| FieldFile.name := py "uploads/salads.jpg" |};
     CategoryFields.category_slug := py "salads" |}.

(** A new, unsaved item. *)
Definition item (name : str) (image : str) (category : Z) : ItemFields.t :=
  {| ItemFields.id := None;
     ItemFields.item_name := name;
     ItemFields.summary := py "A recipe";
     ItemFields.image := {| FieldFile.name := image |};
     ItemFields.image_thumbnail := {| FieldFile.name := [] |};
     ItemFields.content := py "<p>...</p>";
     ItemFields.date_published := 1600000000;
     ItemFields.item_slug := [];
     ItemFields.category_name := category;
     ItemFields.views := 0 |}.

Definition tomato_soup : ItemFields.t :=
  item (py "Tomato Soup") (py "uploads/soup.png") 1.

(** [tomato_soup] as [Item.save] leaves it in this deployment. *)
Definition saved_soup : ItemFields.t :=
  {| ItemFields.id := Some 1;
     ItemFields.item_name := py "Tomato Soup";
     ItemFields.summary := py "A recipe";
     ItemFields.image := {| FieldFile.name := py "uploads/soup.png" |};
     ItemFields.image_thumbnail := {| FieldFile.name := py "uploads/soup_resized.jpg" |};
     ItemFields.content := py "<p>...</p>";
     ItemFields.date_published := 1600000000;
     ItemFields.item_slug := py "tomato-soup";
     ItemFields.category_name := 1;
     ItemFields.views := 0 |}.

(** another new item *)
Definition leek_soup : ItemFields.t :=
  item (py "Leek Soup") (py "uploads/leek.png") 1.

(** a new item whose name is that of [saved_soup] in other letter case *)
Definition shouted_soup : ItemFields.t :=
  item (py "TOMATO SOUP") (py "uploads/shout.png") 1.

(** an item that has no image *)
Definition imageless_soup : ItemFields.t := item (py "Tomato Soup") [] 1.

Definition ann : User.t := {| User.username := py "ann"; User.email := py "ann@example.org" |}.
Definition bob : User.t := {| User.username := py "bob"; User.email := py "bob@example.org" |}.

(** two categories, two registered users, no item *)
Definition world : World :=
  {| db_categories := <[1 := soups]> (<[2 := salads]> ∅);
     db_items := ∅;
     db_users := [ann; bob];
     trace := [] |}.

(** a saved item of the second category *)
Definition greek_salad : ItemFields.t :=
  {| ItemFields.id := Some 2;
     ItemFields.item_name := py "Greek Salad";
     ItemFields.summary := py "A recipe";
     ItemFields.image := {| FieldFile.name := py "uploads/salad.png" |};
     ItemFields.image_thumbnail := {| FieldFile.name := py "uploads/salad_resized.jpg" |};
     ItemFields.content := py "<p>...</p>";
     ItemFields.date_published := 1600000000;
     ItemFields.item_slug := py "greek-salad";
     ItemFields.category_name := 2;
     ItemFields.views := 7 |}.

(** the same database with one item in each category *)
Definition stocked_world : World :=
  {| db_categories := <[1 := soups]> (<[2 := salads]> ∅);
     db_items := <[1 := saved_soup]> (<[2 := greek_salad]> ∅);
     db_users := [ann; bob];
     trace := [] |}.

(** the same database without registered users *)
Definition world_without_users : World :=
  {| db_categories := <[1 := soups]> (<[2 := salads]> ∅);
     db_items := ∅;
     db_users := [];
     trace := [] |}.



End Sample.

(** * Properties *)

(** ** Characters *)

Ltac char_cases :=
  unfold slug_char, is_word, is_sep, is_dash_or_underscore, lower_char in *;
  unfold is_space, is_lower, is_upper, is_digit, is_ascii, HYPHEN, UNDERSCORE in *;
  repeat match goal with
    | H : context [N.leb ?a ?b] |- _ => destruct (N.leb_spec a b)
    | H : context [N.ltb ?a ?b] |- _ => destruct (N.ltb_spec a b)
    | H : context [N.eqb ?a ?b] |- _ => destruct (N.eqb_spec a b)
    | |- context [N.leb ?a ?b] => destruct (N.leb_spec a b)
    | |- context [N.ltb ?a ?b] => destruct (N.ltb_spec a b)
    | |- context [N.eqb ?a ?b] => destruct (N.eqb_spec a b)
    end;
  simpl in *; try congruence; try reflexivity; try lia.

Lemma lower_char_not_upper c : is_upper (lower_char c) = false.
Proof.
  unfold lower_char. destruct (is_upper c) eqn:E; [|exact E].
  unfold is_upper in *.
  destruct (N.leb_spec 65 c), (N.leb_spec c 90); try discriminate.
  destruct (N.leb_spec (c + 32) 90); [lia|]. apply andb_false_r.
Qed.

Lemma kept_lower_char c :
  (is_word c || is_space c || (c =? HYPHEN)%N) = true -> is_upper c = false ->
  is_sep c = false -> slug_char c = true.
Proof. intros H1 H2 H3. char_cases. Qed.

Lemma slug_char_ascii c : slug_char c = true -> is_ascii c = true.
Proof. intros H. char_cases. Qed.

Lemma slug_char_lower c : slug_char c = true -> lower_char c = c.
Proof. intros H. char_cases. Qed.

Lemma slug_char_kept c :
  slug_char c = true -> (is_word c || is_space c || (c =? HYPHEN)%N) = true.
Proof. intros H. char_cases. Qed.

Lemma slug_char_not_space c : slug_char c = true -> is_space c = false.
Proof. intros H. char_cases. Qed.

Lemma slug_char_sep c : slug_char c = true -> is_sep c = (c =? HYPHEN)%N.
Proof. intros H. char_cases. Qed.

(** ** Stripping *)

Lemma forallb_lstrip q p s : forallb q s = true -> forallb q (lstrip p s) = true.
Proof.
  induction s as [|c t IH]; simpl; [easy|].
  intros H. apply andb_true_iff in H as [Hc Ht].
  destruct (p c); [auto|]. simpl. now rewrite Hc, Ht.
Qed.

Lemma forallb_rstrip q p s : forallb q s = true -> forallb q (rstrip p s) = true.
Proof.
  induction s as [|c t IH]; simpl; [easy|].
  intros H. apply andb_true_iff in H as [Hc Ht]. specialize (IH Ht).
  destruct (rstrip p t) as [|r rs].
  - destruct (p c); simpl; [easy|]. now rewrite Hc.
  - change (forallb q (c :: r :: rs)) with (q c && forallb q (r :: rs)).
    now rewrite Hc, IH.
Qed.

Lemma lstrip_hd p s : p 0%N = false -> p (List.hd 0%N (lstrip p s)) = false.
Proof.
  intros H0. induction s as [|c t IH]; simpl; [exact H0|].
  destruct (p c) eqn:E; [exact IH|]. exact E.
Qed.

Lemma rstrip_hd p s : rstrip p s <> [] -> List.hd 0%N (rstrip p s) = List.hd 0%N s.
Proof.
  destruct s as [|c t]; simpl; [easy|].
  destruct (rstrip p t); [destruct (p c)|]; easy.
Qed.

Lemma rstrip_last p s : p 0%N = false -> p (List.last (rstrip p s) 0%N) = false.
Proof.
  intros H0. induction s as [|c t IH]; simpl; [exact H0|].
  destruct (rstrip p t) as [|r rs] eqn:E.
  - destruct (p c) eqn:Ec; simpl; [exact H0 | exact Ec].
  - exact IH.
Qed.

Lemma lstrip_id p s : p (List.hd 0%N s) = false -> lstrip p s = s.
Proof. destruct s as [|c t]; simpl; [easy|]. now intros ->. Qed.

Lemma rstrip_id p s : p (List.last s 0%N) = false -> rstrip p s = s.
Proof.
  induction s as [|c t IH]; [easy|].
  destruct t as [|d t'].
  - simpl. now intros ->.
  - intros H. change (List.last (c :: d :: t') 0%N) with (List.last (d :: t') 0%N) in H.
    specialize (IH H). simpl in *. now rewrite IH.
Qed.

Lemma forallb_hd (q : N -> bool) s : q 0%N = true -> forallb q s = true -> q (List.hd 0%N s) = true.
Proof.
  intros H0. destruct s; simpl; [easy|]. intros H. now apply andb_true_iff in H.
Qed.

Lemma forallb_last (q : N -> bool) s : q 0%N = true -> forallb q s = true -> q (List.last s 0%N) = true.
Proof.
  intros H0. induction s as [|c t IH]; [easy|].
  intros H. simpl in H. apply andb_true_iff in H as [Hc Ht].
  destruct t; [exact Hc|]. now apply IH.
Qed.

(** ** Single hyphens *)

Lemma no_double_hyphen_cons a s :
  no_double_hyphen (a :: s)
  = negb ((a =? HYPHEN)%N && (List.hd 0%N s =? HYPHEN)%N) && no_double_hyphen s.
Proof. destruct s; simpl; [now rewrite andb_false_r | reflexivity]. Qed.

Lemma no_double_hyphen_lstrip p s :
  no_double_hyphen s = true -> no_double_hyphen (lstrip p s) = true.
Proof.
  induction s as [|c t IH]; [easy|].
  intros H. cbn [lstrip]. destruct (p c); [|exact H].
  apply IH. rewrite no_double_hyphen_cons in H. now apply andb_true_iff in H.
Qed.

Lemma no_double_hyphen_rstrip p s :
  no_double_hyphen s = true -> no_double_hyphen (rstrip p s) = true.
Proof.
  induction s as [|c t IH]; [easy|].
  intros H. rewrite no_double_hyphen_cons in H. apply andb_true_iff in H as [H1 H2].
  specialize (IH H2). cbn [rstrip].
  destruct (rstrip p t) as [|r rs] eqn:E.
  - now destruct (p c).
  - rewrite no_double_hyphen_cons, IH, andb_true_r.
    rewrite <- E, rstrip_hd by (rewrite E; easy). exact H1.
Qed.

Lemma collapse_shape s : forall in_run,
  forallb kept_lower s = true ->
  forallb slug_char (re_sub_collapse in_run s) = true
  /\ no_double_hyphen (re_sub_collapse in_run s) = true
  /\ (in_run = true -> (List.hd 0%N (re_sub_collapse in_run s) =? HYPHEN)%N = false).
Proof.
  induction s as [|c t IH]; intros in_run H.
  - simpl. repeat split. 
  - simpl in H. apply andb_true_iff in H as [Hc Ht].
    apply andb_true_iff in Hc as [Hk Hu]. apply negb_true_iff in Hu.
    cbn [re_sub_collapse]. destruct (is_sep c) eqn:Es.
    + destruct (IH true Ht) as (A & B & C). specialize (C eq_refl).
      destruct in_run.
      * repeat split; auto.
      * repeat split; [simpl; now rewrite A | | discriminate].
        rewrite no_double_hyphen_cons, B, C. now rewrite andb_false_r.
    + destruct (IH false Ht) as (A & B & _).
      assert (Hs : slug_char c = true) by now apply kept_lower_char.
      assert (Hh : (c =? HYPHEN)%N = false).
      { unfold is_sep in Es. now apply orb_false_iff in Es. }
      repeat split; [simpl; now rewrite Hs, A | | intros _; exact Hh].
      rewrite no_double_hyphen_cons, B, Hh. reflexivity.
Qed.

Lemma collapse_id s :
  forallb slug_char s = true -> no_double_hyphen s = true ->
  re_sub_collapse false s = s
  /\ ((List.hd 0%N s =? HYPHEN)%N = false -> re_sub_collapse true s = s).
Proof.
  induction s as [|c t IH]; [easy|].
  intros H D. simpl in H. apply andb_true_iff in H as [Hc Ht].
  rewrite no_double_hyphen_cons in D. apply andb_true_iff in D as [D1 D2].
  destruct (IH Ht D2) as [I1 I2].
  cbn [re_sub_collapse List.hd]. rewrite (slug_char_sep c Hc).
  destruct (c =? HYPHEN)%N eqn:E.
  - simpl in D1. apply negb_true_iff in D1. apply N.eqb_eq in E. subst c.
    split; [now rewrite I2 | discriminate].
  - split; [now rewrite I1 | intros _; now rewrite I1].
Qed.

(** ** slugify *)

Lemma ascii_text_unchanged ud s :
  forallb is_ascii s = true -> encode_ascii_ignore (normalize_NFKD ud s) = s.
Proof.
  induction s as [|c t IH]; [easy|].
  intros H. simpl in H. apply andb_true_iff in H as [Hc Ht].
  unfold encode_ascii_ignore, normalize_NFKD in *. simpl.
  rewrite Hc. simpl. rewrite Hc. f_equal. now apply IH.
Qed.

Lemma drop_lower_kept v : forallb kept_lower (re_sub_drop (lower v)) = true.
Proof.
  unfold re_sub_drop, lower. induction v as [|c t IH]; [easy|].
  simpl. destruct (is_word (lower_char c) || is_space (lower_char c) || (lower_char c =? HYPHEN)%N) eqn:E;
    [|exact IH].
  simpl. rewrite IH, andb_true_r. unfold kept_lower.
  now rewrite E, lower_char_not_upper.
Qed.

Lemma forallb_slug_char_weaken (q : N -> bool) s :
  (forall c, slug_char c = true -> q c = true) ->
  forallb slug_char s = true -> forallb q s = true.
Proof.
  intros Hq. induction s as [|c t IH]; [easy|]. simpl.
  intros H. apply andb_true_iff in H as [Hc Ht]. now rewrite (Hq c Hc), IH.
Qed.

Lemma slug_text_unchanged s :
  forallb slug_char s = true -> re_sub_drop (lower s) = s.
Proof.
  unfold re_sub_drop, lower. induction s as [|c t IH]; [easy|].
  intros H. simpl in H. apply andb_true_iff in H as [Hc Ht].
  simpl. rewrite (slug_char_lower c Hc), (slug_char_kept c Hc). f_equal. now apply IH.
Qed.

Lemma slugify_hyphenated ud rel v : hyphenated (slugify ud rel v) = true.
Proof.
  unfold slugify, hyphenated, strip. set (a := encode_ascii_ignore _).
  pose proof (drop_lower_kept a) as K. destruct rel.
  - assert (K' : forallb kept_lower (rstrip is_space (lstrip is_space (re_sub_drop (lower a)))) = true)
      by now apply forallb_rstrip, forallb_lstrip.
    destruct (collapse_shape _ false K') as (A & B & _). now rewrite A, B.
  - destruct (collapse_shape _ false K) as (A & B & _).
    rewrite forallb_rstrip, no_double_hyphen_rstrip; trivial.
    + now apply no_double_hyphen_lstrip.
    + now apply forallb_lstrip.
Qed.

Lemma slugify_dashes_shaped ud v : slug_shaped (slugify ud StripsDashes v) = true.
Proof.
  unfold slug_shaped. rewrite slugify_hyphenated. simpl.
  unfold slugify, strip. set (s := re_sub_collapse _ _).
  rewrite (rstrip_last is_dash_or_underscore (lstrip is_dash_or_underscore s) eq_refl).
  rewrite andb_true_r. apply negb_true_iff.
  destruct (rstrip is_dash_or_underscore (lstrip is_dash_or_underscore s)) eqn:E; [reflexivity|].
  rewrite <- E, rstrip_hd by (rewrite E; easy).
  now apply lstrip_hd.
Qed.

Lemma slugify_whitespace_fixed ud s :
  hyphenated s = true -> slugify ud StripsWhitespace s = s.
Proof.
  unfold hyphenated. intros H. apply andb_true_iff in H as [Hc Hd].
  unfold slugify, strip.
  rewrite ascii_text_unchanged by (apply forallb_slug_char_weaken with (2 := Hc), slug_char_ascii).
  rewrite slug_text_unchanged by exact Hc.
  assert (Hs : forallb (fun c => negb (is_space c)) s = true).
  { apply forallb_slug_char_weaken with (2 := Hc). intros c Hsc.
    now rewrite slug_char_not_space. }
  rewrite lstrip_id, rstrip_id.
  - now apply collapse_id.
  - apply negb_true_iff. now apply (forallb_last (fun c => negb (is_space c))).
  - apply negb_true_iff. now apply (forallb_hd (fun c => negb (is_space c))).
Qed.

Lemma slugify_dashes_fixed ud s :
  slug_shaped s = true -> slugify ud StripsDashes s = s.
Proof.
  unfold slug_shaped, hyphenated. intros H.
  apply andb_true_iff in H as [H Hl]. apply andb_true_iff in H as [H Hh].
  apply andb_true_iff in H as [Hc Hd].
  apply negb_true_iff in Hl, Hh.
  unfold slugify, strip.
  rewrite ascii_text_unchanged by (apply forallb_slug_char_weaken with (2 := Hc), slug_char_ascii).
  rewrite slug_text_unchanged by exact Hc.
  destruct (collapse_id s Hc Hd) as [-> _].
  rewrite lstrip_id by exact Hh. now apply rstrip_id.
Qed.

Lemma slugify_fixed ud rel s : slug_shaped s = true -> slugify ud rel s = s.
Proof.
  destruct rel; [|apply slugify_dashes_fixed].
  intros H. apply slugify_whitespace_fixed.
  unfold slug_shaped in H. apply andb_true_iff in H as [H _].
  now apply andb_true_iff in H as [H _].
Qed.

Lemma slugify_idempotent ud rel v :
  slugify ud rel (slugify ud rel v) = slugify ud rel v.
Proof.
  destruct rel.
  - apply slugify_whitespace_fixed, slugify_hyphenated.
  - apply slugify_dashes_fixed, slugify_dashes_shaped.
Qed.

(** ** Runs of the methods *)

Lemma add_events_nil w : add_events [] w = w.
Proof. destruct w. unfold add_events. simpl. now rewrite app_nil_r. Qed.

Lemma add_event_add_events ev evs w :
  add_event ev (add_events evs w) = add_events (evs ++ [ev]) w.
Proof. unfold add_event, add_events. simpl. now rewrite app_assoc. Qed.

Lemma new_events_add_events evs w : new_events w (add_events evs w) = evs.
Proof.
  unfold new_events, add_events. simpl.
  rewrite skipn_app, skipn_all, Nat.sub_diag. reflexivity.
Qed.

Lemma template_data_frame env u self w :
  exists r, Item.template_data env u self w = (r, self, w)
    /\ forall w2, db_categories w2 = db_categories w ->
         Item.template_data env u self w2 = (r, self, w2).
Proof.
  unfold Item.template_data, bind, attr, lift, ret, Item.related_category.
  destruct (db_categories w !! ItemFields.category_name self) as [c|] eqn:Ec.
  - destruct (FieldFile.url _ _ _) as [url|e] eqn:Eu.
    + destruct (with_suffix _ _) as [stem|e] eqn:Es;
        (eexists; split; [reflexivity|]; intros w2 ->; now rewrite Ec, Eu, Es).
    + eexists; split; [reflexivity|]; intros w2 ->; now rewrite Ec, Eu.
  - eexists; split; [reflexivity|]; intros w2 ->; now rewrite Ec.
Qed.

Lemma destination_frame env u self w :
  exists r, Item.destination env u self w = (r, self, w)
    /\ forall w2, db_categories w2 = db_categories w ->
         Item.destination env u self w2 = (r, self, w2).
Proof.
  destruct (template_data_frame env u self w) as (r & E & F).
  unfold Item.destination, bind. rewrite E.
  destruct r as [d|e]; (eexists; split; [reflexivity|]; intros w2 H; now rewrite (F w2 H)).
Qed.

Lemma comprehension_frame env us self w :
  exists r, comprehension (Item.destination env) us self w = (r, self, w)
    /\ forall w2, db_categories w2 = db_categories w ->
         comprehension (Item.destination env) us self w2 = (r, self, w2).
Proof.
  induction us as [|u us IH].
  - eexists; split; [reflexivity|]. reflexivity.
  - destruct (destination_frame env u self w) as (r1 & E1 & F1).
    destruct IH as (r2 & E2 & F2).
    cbn [comprehension]. unfold bind at 1. rewrite E1.
    destruct r1 as [d|e].
    + unfold bind at 1. rewrite E2. destruct r2 as [ds|e].
      * eexists; split; [reflexivity|]. intros w2 H.
        unfold bind at 1. rewrite (F1 w2 H). unfold bind at 1. now rewrite (F2 w2 H).
      * eexists; split; [reflexivity|]. intros w2 H.
        unfold bind at 1. rewrite (F1 w2 H). unfold bind at 1. now rewrite (F2 w2 H).
    + eexists; split; [reflexivity|]. intros w2 H.
      unfold bind at 1. now rewrite (F1 w2 H).
Qed.

Lemma comprehension_destinations env self w :
  comprehension (Item.destination env) (db_users w) self w = (destinations_of env self w, self, w).
Proof.
  unfold destinations_of.
  destruct (comprehension_frame env (db_users w) self w) as (r & E & _). now rewrite E.
Qed.

Lemma destinations_of_frame env self w w2 :
  db_categories w2 = db_categories w -> db_users w2 = db_users w ->
  destinations_of env self w2 = destinations_of env self w.
Proof.
  intros Hc Hu. unfold destinations_of. rewrite Hu.
  destruct (comprehension_frame env (db_users w) self w) as (r & E & F).
  now rewrite E, (F w2 Hc).
Qed.

(** [notify_registered_users] leaves the object and the database alone and
    does what [notifier_run] says. *)
Lemma notify_registered_users_run env self w :
  Item.notify_registered_users env self w
  = (fst (notifier_run env self w), self, add_events (snd (notifier_run env self w)) w).
Proof.
  unfold Item.notify_registered_users, notifier_run.
  unfold bind at 1. unfold emit at 1.
  unfold bind at 1. unfold lift at 1.
  rewrite <- (destinations_of_frame env self w (add_event (EvBoto3Client (py "ses")) w) eq_refl eq_refl).
  set (w1 := add_event (EvBoto3Client (py "ses")) w).
  destruct (boto3_client env (py "ses")) as [[]|e]; [|reflexivity].
  unfold bind at 1. unfold Item.User_objects_all at 1.
  unfold bind at 1. rewrite (comprehension_destinations env self w1).
  destruct (destinations_of env self w1) as [ds|e]; [|reflexivity].
  destruct (Item.arn_set env); cbn [negb].
  - unfold try_except, bind, Item.ses_send, bind, emit, lift, logger_info, logger_error, emit.
    destruct (send_bulk_templated_email env (Item.bulk_request env ds)) as [resp|e];
      unfold w1, add_event, add_events; cbn [trace db_categories db_items db_users fst snd];
      rewrite <- !app_assoc; reflexivity.
  - unfold logger_info, emit, w1, add_event, add_events.
    cbn [trace db_categories db_items db_users fst snd].
    rewrite <- !app_assoc; reflexivity.
Qed.

(** [Item.save], stage by stage. *)
Lemma save_run env self w :
  Item.save env self w
  = match resize_image env (ItemFields.image self) (Some THUMBNAIL_SUFFIX) with
    | Raise e => (Raise e, self, w)
    | Ok thumbnail =>
        match Item.Model_save env (derived env thumbnail self) w with
        | (Ok _, self', w') => Item.notify_registered_users env self' w'
        | (Raise e, self', w') => (Raise e, self', w')
        end
    end.
Proof.
  unfold Item.save, bind, attr, lift, assign, derived.
  destruct (resize_image env _ _) as [thumbnail|e]; reflexivity.
Qed.

Lemma run_eta {A O} (x : Res A * O * World) : x = (fst (fst x), snd (fst x), snd x).
Proof. now destruct x as [[? ?] ?]. Qed.

Lemma new_events_same w : new_events w w = [].
Proof. unfold new_events. now rewrite skipn_all. Qed.

Lemma new_events_written evs m w :
  new_events w (add_events evs (set_db_items m w)) = evs.
Proof.
  unfold new_events, add_events, set_db_items. simpl.
  rewrite skipn_app, skipn_all, Nat.sub_diag. reflexivity.
Qed.

Lemma notifier_run_frame env self w w2 :
  db_categories w2 = db_categories w -> db_users w2 = db_users w ->
  notifier_run env self w2 = notifier_run env self w.
Proof.
  intros Hc Hu. unfold notifier_run. now rewrite (destinations_of_frame env self w w2 Hc Hu).
Qed.

(** The three ways [Item.save] can go: the image helper raises, the database
    refuses the row, or the row is written and the notifier runs. *)
Lemma save_outcome env self w r self' w' :
  Item.save env self w = (r, self', w') ->
  (exists e, resize_image env (ItemFields.image self) (Some THUMBNAIL_SUFFIX) = Raise e
             /\ r = Raise e /\ self' = self /\ w' = w)
  \/ (exists thumbnail e,
        resize_image env (ItemFields.image self) (Some THUMBNAIL_SUFFIX) = Ok thumbnail
        /\ Item.violation env (derived env thumbnail self) w = Some e
        /\ r = Raise e /\ self' = derived env thumbnail self /\ w' = w)
  \/ (exists thumbnail pk,
        resize_image env (ItemFields.image self) (Some THUMBNAIL_SUFFIX) = Ok thumbnail
        /\ Item.violation env (derived env thumbnail self) w = None
        /\ pk = default (next_pk (db_items w)) (ItemFields.id self)
        /\ self' = ItemFields.set_id (Some pk) (derived env thumbnail self)
        /\ r = fst (notifier_run env self' w)
        /\ w' = add_events (EvDbWrite (py "main_item") pk :: snd (notifier_run env self' w))
                  (set_db_items (<[pk := self']> (db_items w)) w)).
Proof.
  rewrite save_run.
  destruct (resize_image env _ _) as [thumbnail|e] eqn:Er.
  - unfold Item.Model_save.
    destruct (Item.violation env (derived env thumbnail self) w) as [e|] eqn:Ev.
    + intros [= <- <- <-]. right; left. now exists thumbnail, e.
    + rewrite notify_registered_users_run. intros [= <- <- <-].
      right; right. exists thumbnail. eexists.
      split; [reflexivity|]. split; [exact Ev|].
      split; [reflexivity|]. split; [reflexivity|].
      set (pk := default _ _). set (self' := ItemFields.set_id _ _).
      set (w2 := set_db_items _ w).
      rewrite (notifier_run_frame env self' w (add_event (EvDbWrite (py "main_item") pk) w2))
        by reflexivity.
      split; [reflexivity|].
      unfold add_event, add_events. cbn [trace db_categories db_items db_users].
      now rewrite <- app_assoc.
  - intros [= <- <- <-]. left. now exists e.
Qed.

Lemma last_app_nonempty {A} (l l' : list A) d : l' <> [] -> List.last (l ++ l') d = List.last l' d.
Proof.
  intros H. induction l as [|x l IH]; [reflexivity|].
  simpl. destruct (l ++ l') eqn:E; [|exact IH].
  apply app_eq_nil in E as [_ E]. contradiction.
Qed.

(** What the notifier does begins with the creation of the client, which
    happens once, and is all notification. *)
Lemma notifier_run_events env self w :
  exists rest, snd (notifier_run env self w) = EvBoto3Client (py "ses") :: rest
    /\ count_events is_notifier_invocation rest = 0%nat
    /\ forallb is_notification_event rest = true
    /\ count_events is_ses_call rest
       = if is_ok (boto3_client env (py "ses")) && is_ok (destinations_of env self w)
            && Item.arn_set env
         then 1%nat else 0%nat.
Proof.
  unfold notifier_run.
  destruct (boto3_client env (py "ses")) as [[]|e]; [|now exists []].
  destruct (destinations_of env self w) as [ds|e]; [|now exists []].
  destruct (Item.arn_set env); [|now eexists].
  destruct (send_bulk_templated_email env _); now eexists.
Qed.

(** ** The email service fails *)

(** C1.  Whenever a run of [Item.save] reaches the bulk-send call and the
    email service raises an exception there, the exception is caught in
    [notify_registered_users], logged at error level with its [repr], and
    not raised again: [save] returns normally and the row of the item is in
    the database. *)
Theorem save_survives_email_service_exception env self w r self' w' request e :
  Item.save env self w = (r, self', w') ->
  In (EvSendBulk request) (new_events w w') ->
  send_bulk_templated_email env request = Raise e ->
  r = Ok tt
  /\ (exists pk, ItemFields.id self' = Some pk /\ db_items w' !! pk = Some self')
  /\ List.last (trace w') (EvLog INFO [])
     = EvLog ERROR (py "Failed to send SES email notification: " ++ exc_repr e)
  /\ count_events is_ses_call (new_events w w') = 1%nat.
Proof.
  intros Hsave Hin Hraise.
  destruct (save_outcome _ _ _ _ _ _ Hsave)
    as [(e1 & _ & _ & _ & ->) | [(th & e1 & _ & _ & _ & _ & ->) | (th & pk & _ & _ & _ & Hself & Hr & ->)]];
    try (rewrite new_events_same in Hin; contradiction).
  rewrite new_events_written in *.
  destruct Hin as [Hin|Hin]; [discriminate|].
  assert (Hrun : notifier_run env self' w
                 = (Ok tt, [EvBoto3Client (py "ses"); EvSendBulk request;
                            EvLog ERROR (py "Failed to send SES email notification: " ++ exc_repr e)])).
  { clear Hr. unfold notifier_run in *.
    destruct (boto3_client env (py "ses")) as [[]|e1];
      [|destruct Hin as [Hin|[]]; discriminate].
    destruct (destinations_of env self' w) as [ds|e1];
      [|destruct Hin as [Hin|[]]; discriminate].
    destruct (Item.arn_set env);
      [|destruct Hin as [Hin|[Hin|[]]]; discriminate].
    destruct (send_bulk_templated_email env (Item.bulk_request env ds)) as [resp|e1] eqn:Es;
      destruct Hin as [Hin|[Hin|[Hin|[]]]]; try discriminate;
      injection Hin as <-; congruence. }
  rewrite Hrun in *. cbn [fst snd] in *.
  split; [exact Hr|]. split.
  - exists pk. split; [now rewrite Hself|].
    cbn [add_events set_db_items db_items]. apply lookup_insert_eq.
  - split; [|reflexivity].
    cbn [add_events set_db_items trace]. now rewrite last_app_nonempty.
Qed.

(** A run in which the service refuses the request. *)
Lemma save_survives_email_service_exception_witness :
  fst (fst (Item.save Sample.env_ses_down Sample.tomato_soup Sample.world)) = Ok tt.
Proof.
  eapply (save_survives_email_service_exception Sample.env_ses_down Sample.tomato_soup
            Sample.world _ _ _ _ Sample.ClientError (run_eta _)).
  - vm_compute. right. right. left. reflexivity.
  - reflexivity.
Defined.

Lemma notifier_run_ok env self w :
  fst (notifier_run env self w) = Ok tt ->
  is_ok (boto3_client env (py "ses")) = true /\ is_ok (destinations_of env self w) = true.
Proof.
  unfold notifier_run.
  destruct (boto3_client env (py "ses")) as [[]|e]; [|discriminate].
  destruct (destinations_of env self w) as [ds|e]; [|discriminate]. easy.
Qed.

Lemma written_frame env self evs m w :
  destinations_of env self (add_events evs (set_db_items m w)) = destinations_of env self w.
Proof. now apply destinations_of_frame. Qed.

(** ** Persist first, notify afterwards *)

(** C3.  In a run of [Item.save] nothing of the notifier happens before the
    row is written: every notification event comes after the write of the
    row, which is then in the database; and when persisting raises, because
    the image helper fails or because the database refuses the row (a
    uniqueness violation, for one), [save] raises that exception and
    nothing at all has happened, so no notification was attempted. *)
Theorem notifier_runs_only_after_persistence env self w r self' w' :
  Item.save env self w = (r, self', w') ->
  (forall before ev after,
      new_events w w' = before ++ ev :: after -> is_notification_event ev = true ->
      exists pk, In (EvDbWrite (py "main_item") pk) before
                 /\ ItemFields.id self' = Some pk /\ db_items w' !! pk = Some self')
  /\ (forall e,
        resize_image env (ItemFields.image self) (Some THUMBNAIL_SUFFIX) = Raise e ->
        r = Raise e /\ new_events w w' = [] /\ w' = w)
  /\ (forall thumbnail e,
        resize_image env (ItemFields.image self) (Some THUMBNAIL_SUFFIX) = Ok thumbnail ->
        Item.violation env (derived env thumbnail self) w = Some e ->
        r = Raise e /\ new_events w w' = [] /\ w' = w).
Proof.
  intros Hsave.
  destruct (save_outcome _ _ _ _ _ _ Hsave)
    as [(e1 & Hres & -> & _ & ->) | [(th & e1 & Hres & Hv & -> & _ & ->) | (th & pk & Hres & Hv & _ & Hself & _ & ->)]].
  - rewrite new_events_same. split; [|split].
    + intros [|] ? ? [=].
    + intros e He. rewrite Hres in He. injection He as ->. easy.
    + intros th e He. congruence.
  - rewrite new_events_same. split; [|split].
    + intros [|] ? ? [=].
    + intros e He. congruence.
    + intros th' e He Hv'. rewrite Hres in He. injection He as <-.
      rewrite Hv in Hv'. injection Hv' as ->. easy.
  - rewrite new_events_written. split; [|split].
    + intros before ev after Heq Hev. exists pk.
      destruct before as [|b before]; simpl in Heq; injection Heq as <- _.
      * discriminate.
      * split; [now left|]. split; [now rewrite Hself|].
        cbn [add_events set_db_items db_items]. apply lookup_insert_eq.
    + intros e He. congruence.
    + intros th' e He Hv'. rewrite Hres in He. injection He as <-. congruence.
Qed.

(** A second item of the same name: the database refuses it and the
    notifier is not called. *)
Lemma notifier_runs_only_after_persistence_witness :
  is_ok (fst (fst (Item.save Sample.env_ses_up Sample.tomato_soup Sample.world))) = true
  /\ is_ok (fst (fst (Item.save Sample.env_ses_up Sample.tomato_soup
                        (snd (Item.save Sample.env_ses_up Sample.tomato_soup Sample.world)))))
     = false
  /\ new_events (snd (Item.save Sample.env_ses_up Sample.tomato_soup Sample.world))
       (snd (Item.save Sample.env_ses_up Sample.tomato_soup
               (snd (Item.save Sample.env_ses_up Sample.tomato_soup Sample.world))))
     = [].
Proof.
  split; [reflexivity|].
  assert (Hres : resize_image Sample.env_ses_up (ItemFields.image Sample.tomato_soup)
                   (Some THUMBNAIL_SUFFIX)
                 = Ok {| FieldFile.name := py "uploads/soup_resized.jpg" |})
    by (vm_compute; reflexivity).
  destruct (notifier_runs_only_after_persistence Sample.env_ses_up Sample.tomato_soup
              (snd (Item.save Sample.env_ses_up Sample.tomato_soup Sample.world))
              _ _ _ (run_eta _)) as (_ & _ & H).
  destruct (H _ (IntegrityError (py "duplicate key value violates unique constraint on item_name"))
              Hres) as (Hr & Hev & _).
  - vm_compute. reflexivity.
  - rewrite Hr. split; [reflexivity | exact Hev].
Defined.

(** ** Counting views *)

(** C5.  When [increment_views], called on an item whose [views] is 0,
    returns, [views] is 1 in the object and in its row, the notifier has
    been invoked exactly once, and the email service has been called once
    if an outbound identity is configured and not at all if none is. *)
Theorem increment_views_notifies_once env self w self' w' :
  ItemFields.views self = 0 ->
  Item.increment_views env self w = (Ok tt, self', w') ->
  ItemFields.views self' = 1
  /\ (exists pk, ItemFields.id self' = Some pk /\ db_items w' !! pk = Some self')
  /\ count_events is_notifier_invocation (new_events w w') = 1%nat
  /\ count_events is_ses_call (new_events w w') = if Item.arn_set env then 1%nat else 0%nat.
Proof.
  intros Hviews Hrun.
  change (Item.increment_views env self w)
    with (Item.save env (ItemFields.set_views (ItemFields.views self + 1) self) w) in Hrun.
  destruct (save_outcome _ _ _ _ _ _ Hrun)
    as [(e1 & _ & [=] & _) | [(th & e1 & _ & _ & [=] & _) | (th & pk & _ & _ & _ & Hself & Hr & ->)]].
  rewrite new_events_written.
  destruct (notifier_run_events env self' w) as (rest & -> & Hinv & _ & Hses).
  destruct (notifier_run_ok env self' w (eq_sym Hr)) as [Hb Hd].
  rewrite Hb, Hd in Hses.
  split; [rewrite Hself; cbn; now rewrite Hviews|].
  split.
  - exists pk. split; [now rewrite Hself|].
    cbn [add_events set_db_items db_items]. apply lookup_insert_eq.
  - split.
    + unfold count_events in *. cbn. now rewrite Hinv.
    + unfold count_events in *. cbn. exact Hses.
Qed.

(** One view of a fresh item, with and without an identity. *)
Lemma increment_views_notifies_once_witness :
  count_events is_ses_call
    (new_events Sample.world (snd (Item.increment_views Sample.env_ses_up Sample.tomato_soup Sample.world)))
  = 1%nat
  /\ count_events is_ses_call
       (new_events Sample.world (snd (Item.increment_views Sample.env_no_identity Sample.tomato_soup Sample.world)))
     = 0%nat.
Proof.
  split.
  - refine (proj2 (proj2 (proj2 (increment_views_notifies_once Sample.env_ses_up Sample.tomato_soup
              Sample.world _ _ eq_refl _)))).
    vm_compute. reflexivity.
  - refine (proj2 (proj2 (proj2 (increment_views_notifies_once Sample.env_no_identity Sample.tomato_soup
              Sample.world _ _ eq_refl _)))).
    vm_compute. reflexivity.
Defined.

(** ** No outbound identity *)

(** C2, as the code has it.  Without an outbound identity [Item.save] never
    calls the email service.  When moreover the row has been written and
    the statements of [notify_registered_users] that come before the test
    of the identity (the creation of the client and the construction of the
    list of destinations) raise nothing, the notifier only logs, at info
    level, that notifications are disabled, and [save] returns normally. *)
Theorem save_without_identity env self w r self' w' :
  Item.arn_set env = false ->
  Item.save env self w = (r, self', w') ->
  count_events is_ses_call (new_events w w') = 0%nat
  /\ (forall pk,
        In (EvDbWrite (py "main_item") pk) (new_events w w') ->
        is_ok (boto3_client env (py "ses")) = true ->
        is_ok (destinations_of env self' w') = true ->
        r = Ok tt
        /\ db_items w' !! pk = Some self'
        /\ new_events w w'
           = [EvDbWrite (py "main_item") pk; EvBoto3Client (py "ses");
              EvLog INFO (py "SES_IDENTITY_ARN not set, therefore email notifications are disabled.")]).
Proof.
  intros Harn Hsave.
  destruct (save_outcome _ _ _ _ _ _ Hsave)
    as [(e1 & _ & _ & _ & ->) | [(th & e1 & _ & _ & _ & _ & ->) | (th & pk & _ & _ & _ & Hself & Hr & ->)]];
    try (rewrite new_events_same; split; [reflexivity | intros ? []]).
  rewrite new_events_written, written_frame. split.
  - destruct (notifier_run_events env self' w) as (rest & -> & _ & _ & Hses).
    rewrite Harn, andb_false_r in Hses. unfold count_events in *. cbn. exact Hses.
  - intros pk' Hin Hb Hd. rewrite Hr. clear Hr. unfold notifier_run in *.
    destruct (boto3_client env (py "ses")) as [[]|]; [|discriminate].
    destruct (destinations_of env self' w); [|discriminate].
    rewrite Harn in *. cbn [fst snd] in *.
    destruct Hin as [Hin|[Hin|[Hin|[]]]]; try discriminate.
    injection Hin as <-. split; [reflexivity|]. split; [|reflexivity].
    cbn [add_events set_db_items db_items]. apply lookup_insert_eq.
Qed.

(** A save without identity that logs and returns. *)
Lemma save_without_identity_witness :
  fst (fst (Item.save Sample.env_no_identity Sample.tomato_soup Sample.world)) = Ok tt.
Proof.
  refine (proj1 (proj2 (save_without_identity Sample.env_no_identity Sample.tomato_soup
            Sample.world _ _ _ eq_refl (run_eta _)) 1 _ eq_refl _)).
  - vm_compute. left. reflexivity.
  - vm_compute. reflexivity.
Defined.

(** C2, as stated, fails.  No identity is configured and the row of the
    item is written, yet [save] does not return normally and nothing is
    logged: in the first run the item has no image, the helper hands the
    unset image back as thumbnail and its URL raises [ValueError] while the
    destinations are built; in the second no AWS region is configured and
    the creation of the client raises. *)
Lemma save_without_identity_can_raise :
  Item.arn_set Sample.env_no_identity = false
  /\ fst (fst (Item.save Sample.env_no_identity Sample.imageless_soup Sample.world))
     = Raise (ValueError (py "The 'image_thumbnail' attribute has no file associated with it."))
  /\ db_items (snd (Item.save Sample.env_no_identity Sample.imageless_soup Sample.world)) !! 1
     = Some (snd (fst (Item.save Sample.env_no_identity Sample.imageless_soup Sample.world)))
  /\ new_events Sample.world (snd (Item.save Sample.env_no_identity Sample.imageless_soup Sample.world))
     = [EvDbWrite (py "main_item") 1; EvBoto3Client (py "ses")]
  /\ Item.arn_set Sample.env_no_region = false
  /\ fst (fst (Item.save Sample.env_no_region Sample.tomato_soup Sample.world))
     = Raise Sample.NoRegionError
  /\ db_items (snd (Item.save Sample.env_no_region Sample.tomato_soup Sample.world)) !! 1
     = Some (snd (fst (Item.save Sample.env_no_region Sample.tomato_soup Sample.world)))
  /\ new_events Sample.world (snd (Item.save Sample.env_no_region Sample.tomato_soup Sample.world))
     = [EvDbWrite (py "main_item") 1; EvBoto3Client (py "ses")].
Proof. vm_compute. repeat split. Qed.

(** ** The destinations are built before the identity is tested *)

(** C9.  [notify_registered_users] builds the list of destinations, one per
    user of the directory, before it looks at the identity: when the
    construction raises, the notifier raises the same exception whatever
    the configuration is, without logging, and so does an [Item.save] that
    has already written the row. *)
Theorem payload_exception_escapes_save env e :
  (forall self w,
      is_ok (boto3_client env (py "ses")) = true ->
      destinations_of env self w = Raise e ->
      Item.notify_registered_users env self w
      = (Raise e, self, add_events [EvBoto3Client (py "ses")] w))
  /\ (forall self w r self' w' pk,
        Item.save env self w = (r, self', w') ->
        In (EvDbWrite (py "main_item") pk) (new_events w w') ->
        is_ok (boto3_client env (py "ses")) = true ->
        destinations_of env self' w' = Raise e ->
        r = Raise e
        /\ db_items w' !! pk = Some self'
        /\ new_events w w' = [EvDbWrite (py "main_item") pk; EvBoto3Client (py "ses")]).
Proof.
  split.
  - intros self w Hb Hd. rewrite notify_registered_users_run. unfold notifier_run.
    destruct (boto3_client env (py "ses")) as [[]|]; [|discriminate].
    now rewrite Hd.
  - intros self w r self' w' pk' Hsave Hin Hb Hd.
    destruct (save_outcome _ _ _ _ _ _ Hsave)
      as [(e1 & _ & _ & _ & ->) | [(th & e1 & _ & _ & _ & _ & ->) | (th & pk & _ & _ & _ & Hself & Hr & ->)]];
      try (rewrite new_events_same in Hin; contradiction).
    rewrite new_events_written in *. rewrite written_frame in Hd.
    rewrite Hr. clear Hr. unfold notifier_run in *.
    destruct (boto3_client env (py "ses")) as [[]|]; [|discriminate].
    rewrite Hd in *. cbn [fst snd] in *.
    destruct Hin as [Hin|[Hin|[]]]; try discriminate.
    injection Hin as <-. split; [reflexivity|]. split; [|reflexivity].
    cbn [add_events set_db_items db_items]. apply lookup_insert_eq.
Qed.

(** An item without image, saved while notifications are disabled. *)
Lemma payload_exception_escapes_save_witness :
  fst (fst (Item.save Sample.env_no_identity Sample.imageless_soup Sample.world))
  = Raise (ValueError (py "The 'image_thumbnail' attribute has no file associated with it.")).
Proof.
  refine (proj1 (proj2 (payload_exception_escapes_save Sample.env_no_identity _)
                   _ Sample.world _ _ _ 1 (run_eta _) _ eq_refl _)).
  - vm_compute. left. reflexivity.
  - vm_compute. reflexivity.
Defined.

(** ** The thumbnail URL of the email *)




Lemma destinations_each env self w P :
  (forall user d, Item.destination env user self w = (Ok d, self, w) -> P user d) ->
  forall users destinations,
    fst (fst (comprehension (Item.destination env) users self w)) = Ok destinations ->
    Forall2 P users destinations.
Proof.
  intros HP. induction users as [|u us IH]; intros ds H.
  - injection H as <-. constructor.
  - cbn [comprehension] in H. unfold bind at 1 in H.
    destruct (destination_frame env u self w) as (r1 & E1 & _). rewrite E1 in H.
    destruct r1 as [d|e]; [|discriminate].
    unfold bind at 1 in H.
    destruct (comprehension_frame env us self w) as (r2 & E2 & _). rewrite E2 in H.
    destruct r2 as [ds'|e]; [|discriminate].
    injection H as <-. constructor.
    + now apply HP.
    + apply IH. now rewrite E2.
Qed.




(** ** Slugs *)

Lemma slugify_tomato_soup ud rel : slugify ud rel (py "Tomato Soup") = py "tomato-soup".
Proof. destruct rel; vm_compute; reflexivity. Qed.

(** What a returning [Item.save] leaves in the object and in the database. *)
Lemma save_derives env self w self' w' :
  Item.save env self w = (Ok tt, self', w') ->
  exists thumbnail pk,
    resize_image env (ItemFields.image self) (Some THUMBNAIL_SUFFIX) = Ok thumbnail
    /\ self' = ItemFields.set_id (Some pk) (derived env thumbnail self)
    /\ db_items w' !! pk = Some self'.
Proof.
  intros Hsave.
  destruct (save_outcome _ _ _ _ _ _ Hsave)
    as [(e1 & _ & [=] & _) | [(th & e1 & _ & _ & [=] & _) | (th & pk & Hres & _ & _ & Hself & _ & ->)]].
  exists th, pk. split; [exact Hres|]. split; [exact Hself|].
  cbn [add_events set_db_items db_items]. apply lookup_insert_eq.
Qed.

(** C6.  The slug given to a name at save time is a function of the name
    alone; it is made of lower-case words separated by single hyphens;
    a text that already has the shape of a slug is its own slug, so that
    deriving the slug of a slug changes nothing; an item named
    [Tomato Soup] is saved with the slug [tomato-soup], and saving it
    again gives the same slug. *)
Theorem slug_derivation env :
  (forall name, hyphenated (slugify (unicode env) (slugify_release env) name) = true)
  /\ (forall s, slug_shaped s = true -> slugify (unicode env) (slugify_release env) s = s)
  /\ (forall name,
        slugify (unicode env) (slugify_release env)
          (slugify (unicode env) (slugify_release env) name)
        = slugify (unicode env) (slugify_release env) name)
  /\ (forall self1 w1 self1' w1' self2 w2 self2' w2',
        ItemFields.item_name self1 = ItemFields.item_name self2 ->
        Item.save env self1 w1 = (Ok tt, self1', w1') ->
        Item.save env self2 w2 = (Ok tt, self2', w2') ->
        ItemFields.item_slug self1' = ItemFields.item_slug self2')
  /\ (forall self w self' w',
        ItemFields.item_name self = py "Tomato Soup" ->
        Item.save env self w = (Ok tt, self', w') ->
        ItemFields.item_slug self' = py "tomato-soup"
        /\ ItemFields.item_name self' = py "Tomato Soup"
        /\ forall self'' w'',
             Item.save env self' w' = (Ok tt, self'', w'') ->
             ItemFields.item_slug self'' = py "tomato-soup").
Proof.
  split; [intros; apply slugify_hyphenated|].
  split; [intros; now apply slugify_fixed|].
  split; [intros; apply slugify_idempotent|].
  split.
  - intros self1 w1 self1' w1' self2 w2 self2' w2' Hname H1 H2.
    destruct (save_derives _ _ _ _ _ H1) as (th1 & pk1 & _ & -> & _).
    destruct (save_derives _ _ _ _ _ H2) as (th2 & pk2 & _ & -> & _).
    cbn. now rewrite Hname.
  - intros self w self' w' Hname H1.
    destruct (save_derives _ _ _ _ _ H1) as (th1 & pk1 & _ & -> & _).
    split; [cbn; rewrite Hname; apply slugify_tomato_soup|].
    split; [exact Hname|].
    intros self'' w'' H2.
    destruct (save_derives _ _ _ _ _ H2) as (th2 & pk2 & _ & -> & _).
    cbn. rewrite Hname. apply slugify_tomato_soup.
Qed.

(** The slug [tomato-soup] is its own slug, and the sample item gets it at
    its first and at its second save. *)
Lemma slug_derivation_witness :
  slugify Sample.tables StripsDashes (py "tomato-soup") = py "tomato-soup"
  /\ ItemFields.item_slug (snd (fst (Item.save Sample.env_ses_up Sample.tomato_soup Sample.world)))
     = py "tomato-soup"
  /\ ItemFields.item_slug
       (snd (fst (Item.save Sample.env_ses_up
                    (snd (fst (Item.save Sample.env_ses_up Sample.tomato_soup Sample.world)))
                    (snd (Item.save Sample.env_ses_up Sample.tomato_soup Sample.world)))))
     = py "tomato-soup".
Proof.
  destruct (slug_derivation Sample.env_ses_up) as (_ & Hfix & _ & _ & Hsoup).
  split; [apply (Hfix (py "tomato-soup")); vm_compute; reflexivity|].
  destruct (Hsoup Sample.tomato_soup Sample.world _ _ eq_refl (run_eta _)) as (H1 & _ & H2).
  split; [exact H1|].
  apply (H2 _ _ (run_eta _)).
Defined.

(** ** Derived fields *)

(** What a returning [Category.save] leaves in the object and in the
    database. *)
Lemma category_save_derives env self w self' w' :
  Category.save env self w = (Ok tt, self', w') ->
  exists resized pk,
    resize_image env (CategoryFields.image self) None = Ok resized
    /\ self' = CategoryFields.set_id (Some pk)
                 (CategoryFields.set_category_slug
                    (slugify (unicode env) (slugify_release env) (CategoryFields.category_name self))
                    (CategoryFields.set_image resized self))
    /\ db_categories w' !! pk = Some self'.
Proof.
  unfold Category.save, bind, attr, lift, assign, Category.Model_save.
  destruct (resize_image env _ _) as [resized|e]; [|discriminate].
  destruct (Category.violation env _ w); [discriminate|].
  intros [= <- <-]. eexists resized, _. split; [reflexivity|]. split; [reflexivity|].
  cbn [add_event set_db_categories db_categories]. apply lookup_insert_eq.
Qed.

(** C7.  After every save that returns, of a category or of an item, the
    slug of the object and of its row is the slug of the current name, and
    the thumbnail of an item is the resized current image; the name and the
    image of an item are left as they were.  What the caller had put in
    the slug or in the thumbnail before is overwritten and plays no part:
    the save of an object that differs only there does the same. *)
Theorem save_rederives_slug_and_thumbnail env :
  (forall (self : CategoryFields.t) w self' w',
      Category.save env self w = (Ok tt, self', w') ->
      CategoryFields.category_slug self'
      = slugify (unicode env) (slugify_release env) (CategoryFields.category_name self')
      /\ CategoryFields.category_name self' = CategoryFields.category_name self
      /\ (exists pk, CategoryFields.id self' = Some pk /\ db_categories w' !! pk = Some self')
      /\ forall slug,
           Category.save env (CategoryFields.set_category_slug slug self) w = (Ok tt, self', w'))
  /\ (forall (self : ItemFields.t) w self' w',
        Item.save env self w = (Ok tt, self', w') ->
        ItemFields.item_slug self'
        = slugify (unicode env) (slugify_release env) (ItemFields.item_name self')
        /\ ItemFields.item_name self' = ItemFields.item_name self
        /\ ItemFields.image self' = ItemFields.image self
        /\ resize_image env (ItemFields.image self') (Some THUMBNAIL_SUFFIX)
           = Ok (ItemFields.image_thumbnail self')
        /\ (exists pk, ItemFields.id self' = Some pk /\ db_items w' !! pk = Some self')
        /\ forall slug thumbnail,
             Item.save env
               (ItemFields.set_item_slug slug (ItemFields.set_image_thumbnail thumbnail self)) w
             = (Ok tt, self', w')).
Proof.
  split.
  - intros self w self' w' Hsave.
    destruct (category_save_derives _ _ _ _ _ Hsave) as (resized & pk & _ & Hself & Hrow).
    split; [now rewrite Hself|]. split; [now rewrite Hself|].
    split; [exists pk; split; [now rewrite Hself | exact Hrow]|].
    intros slug. revert Hsave. unfold Category.save, bind, attr, lift, assign.
    cbn [CategoryFields.image CategoryFields.set_category_slug].
    destruct (resize_image env _ _); [|discriminate]. exact (fun H => H).
  - intros self w self' w' Hsave.
    destruct (save_derives _ _ _ _ _ Hsave) as (thumbnail & pk & Hres & Hself & Hrow).
    split; [now rewrite Hself|]. split; [now rewrite Hself|].
    split; [now rewrite Hself|]. split; [rewrite Hself; exact Hres|].
    split; [exists pk; split; [now rewrite Hself | exact Hrow]|].
    intros slug thumbnail'. revert Hsave. rewrite !save_run.
    cbn [ItemFields.image ItemFields.set_item_slug ItemFields.set_image_thumbnail].
    destruct (resize_image env _ _); [|discriminate]. exact (fun H => H).
Qed.

(** Saving the sample item with a slug and a thumbnail of the caller's
    choice gives the derived ones. *)
Lemma save_rederives_slug_and_thumbnail_witness :
  Item.save Sample.env_ses_up
    (ItemFields.set_item_slug (py "my-own-slug")
       (ItemFields.set_image_thumbnail {| FieldFile.name := py "uploads/mine.jpg" |}
          Sample.tomato_soup))
    Sample.world
  = (Ok tt, Sample.saved_soup,
     snd (Item.save Sample.env_ses_up Sample.tomato_soup Sample.world)).
Proof.
  refine (proj2 (proj2 (proj2 (proj2 (proj2
            (proj2 (save_rederives_slug_and_thumbnail Sample.env_ses_up)
               Sample.tomato_soup Sample.world _ _ _))))) _ _).
  vm_compute. reflexivity.
Defined.

(** ** Deleting a category *)

(** C8.  Deleting a category leaves every item in the database.  When the
    deletion goes through, the items that referenced the category have the
    default category, 1, as their category and are otherwise unchanged, the
    other items are unchanged, and the row of the category is gone; when it
    is refused, nothing has changed.  It goes through whenever the default
    category exists and is not the one being deleted. *)
Theorem delete_category_sets_default self w r self' w' pk :
  CategoryFields.id self = Some pk ->
  Category.delete self w = (r, self', w') ->
  (forall k, is_Some (db_items w' !! k) <-> is_Some (db_items w !! k))
  /\ (r = Ok tt ->
        (forall k item, db_items w !! k = Some item -> ItemFields.category_name item = pk ->
           db_items w' !! k = Some (ItemFields.set_category_name 1 item))
        /\ (forall k item, db_items w !! k = Some item -> ItemFields.category_name item <> pk ->
              db_items w' !! k = Some item)
        /\ db_categories w' !! pk = None)
  /\ (r <> Ok tt -> w' = w)
  /\ (is_Some (db_categories w !! 1) -> pk <> 1 -> r = Ok tt).
Proof.
  intros Hid. unfold Category.delete. rewrite Hid.
  set (referenced := existsb _ _). set (items' := _ <$> db_items w).
  set (categories' := base.delete pk (db_categories w)).
  assert (Hitems : forall k, items' !! k
            = (fun i => if Z.eqb (ItemFields.category_name i) pk
                        then ItemFields.set_category_name ItemFields.category_name_default i
                        else i) <$> db_items w !! k)
    by (intros k; apply lookup_fmap).
  destruct (referenced && negb (bool_decide (is_Some (categories' !! ItemFields.category_name_default))))
    eqn:Hrefused; intros [= <- <- <-].
  - split; [reflexivity|]. split; [discriminate|]. split; [reflexivity|].
    intros H1 Hne. exfalso.
    apply andb_true_iff in Hrefused as [_ Hrefused]. apply negb_true_iff in Hrefused.
    apply bool_decide_eq_false in Hrefused. apply Hrefused.
    unfold categories', ItemFields.category_name_default. now rewrite lookup_delete_ne.
  - cbn [add_event set_db_items set_db_categories db_items db_categories].
    split; [|split; [|split]].
    + intros k. rewrite Hitems. apply fmap_is_Some.
    + intros _. split; [|split].
      * intros k item Hk Hc. rewrite Hitems, Hk. cbn.
        now rewrite (proj2 (Z.eqb_eq _ _) Hc).
      * intros k item Hk Hc. rewrite Hitems, Hk. cbn.
        now rewrite (proj2 (Z.eqb_neq _ _) Hc).
      * apply lookup_delete_eq.
    + intros H. now contradiction H.
    + reflexivity.
Qed.

(** The category of salads is deleted: the salad stays, in the default
    category. *)
Lemma delete_category_sets_default_witness :
  db_items (snd (Category.delete Sample.salads Sample.stocked_world)) !! 2
  = Some (ItemFields.set_category_name 1 Sample.greek_salad).
Proof.
  destruct (delete_category_sets_default Sample.salads Sample.stocked_world _ _ _ 2
              eq_refl (run_eta _)) as (_ & H & _).
  destruct H as (H & _); [vm_compute; reflexivity|].
  apply (H 2 Sample.greek_salad); [vm_compute; reflexivity | reflexivity].
Defined.

(** ** Names longer than a slug may be *)





(** * Further properties of the models *)

(** ** The tables *)

Lemma next_pk_above {R} (table : gmap Z R) k :
  is_Some (table !! k) -> k < next_pk table.
Proof.
  unfold next_pk. revert k.
  apply (map_fold_weak_ind
           (fun acc (m : gmap Z R) => forall k, is_Some (m !! k) -> k < 1 + acc)).
  - intros k [x Hx]. now rewrite lookup_empty in Hx.
  - intros i x m acc Hi IH k Hk.
    destruct (decide (i = k)) as [->|Hne]; [lia|].
    rewrite lookup_insert_ne in Hk by exact Hne. specialize (IH k Hk). lia.
Qed.

Lemma next_pk_fresh {R} (table : gmap Z R) : table !! next_pk table = None.
Proof.
  destruct (table !! next_pk table) eqn:E; [|reflexivity].
  pose proof (next_pk_above table (next_pk table) (ex_intro _ _ E)). lia.
Qed.

Lemma is_unique_taken {R} (column : R -> str) pk v (table : gmap Z R) k row :
  table !! k = Some row -> column row = v -> pk <> Some k ->
  is_unique column pk v table = false.
Proof.
  intros Hk Hv Hpk. unfold is_unique.
  destruct (forallb _ _) eqn:E; [|reflexivity]. exfalso.
  rewrite forallb_forall in E.
  specialize (E (k, row)). cbn [fst snd] in E.
  rewrite Hv in E. unfold str_eqb in E. rewrite bool_decide_eq_true_2 in E by reflexivity.
  cbn [negb orb] in E.
  assert (Hin : In (k, row) (map_to_list table))
    by (apply list_elem_of_In, elem_of_map_to_list; exact Hk).
  specialize (E Hin). destruct pk as [i|]; [|discriminate].
  apply Z.eqb_eq in E. subst i. now apply Hpk.
Qed.

(** ** What a save touches *)

(** X1.  [Item.save] touches one row at most, the one of the object:
    every other row of the items, the categories and the users are as they
    were.  An object that had no primary key gets one under which there
    was no row, so that a new item never replaces an existing one. *)
Theorem save_touches_one_row env self w r self' w' :
  Item.save env self w = (r, self', w') ->
  db_categories w' = db_categories w
  /\ db_users w' = db_users w
  /\ (forall k, ItemFields.id self' <> Some k -> db_items w' !! k = db_items w !! k)
  /\ (ItemFields.id self = None ->
      forall pk, ItemFields.id self' = Some pk -> db_items w !! pk = None).
Proof.
  intros Hsave.
  destruct (save_outcome _ _ _ _ _ _ Hsave)
    as [(e1 & _ & _ & -> & ->) | [(th & e1 & _ & _ & _ & -> & ->) | (th & pk & _ & _ & Hpk & Hself & _ & ->)]].
  - repeat split; congruence.
  - repeat split; cbn; congruence.
  - cbn [add_events set_db_items db_items db_categories db_users].
    split; [reflexivity|]. split; [reflexivity|]. split.
    + intros k Hk. apply lookup_insert_ne. intros ->. apply Hk. now rewrite Hself.
    + intros Hnew pk' Hid. rewrite Hself in Hid. injection Hid as <-.
      rewrite Hpk, Hnew. apply next_pk_fresh.
Qed.

(** X2.  [notify_registered_users] changes neither the item nor the
    database: it only adds events to the trace. *)
Theorem notifier_changes_nothing_stored env self w :
  snd (fst (Item.notify_registered_users env self w)) = self
  /\ db_items (snd (Item.notify_registered_users env self w)) = db_items w
  /\ db_categories (snd (Item.notify_registered_users env self w)) = db_categories w
  /\ db_users (snd (Item.notify_registered_users env self w)) = db_users w
  /\ exists events,
       trace (snd (Item.notify_registered_users env self w)) = trace w ++ events.
Proof.
  rewrite notify_registered_users_run. repeat split. now eexists.
Qed.

(** X3.  [Category.save] never calls the notifier: a save that returns has
    written the row of the category and done nothing else, a save that
    raises has done nothing; the items and the users are as they were. *)
Theorem category_save_never_notifies env self w r self' w' :
  Category.save env self w = (r, self', w') ->
  forallb (fun ev => negb (is_notification_event ev)) (new_events w w') = true
  /\ db_items w' = db_items w
  /\ db_users w' = db_users w
  /\ (r = Ok tt ->
      exists pk, new_events w w' = [EvDbWrite (py "main_category") pk]
                 /\ CategoryFields.id self' = Some pk
                 /\ forall k, k <> pk -> db_categories w' !! k = db_categories w !! k)
  /\ (r <> Ok tt -> w' = w).
Proof.
  unfold Category.save, bind, attr, lift, assign, Category.Model_save.
  destruct (resize_image env _ _) as [resized|e].
  - destruct (Category.violation env _ w) as [e|]; intros [= <- <- <-].
    + rewrite new_events_same. repeat split; try reflexivity. discriminate.
    + set (pk := default _ _). set (self' := CategoryFields.set_id _ _).
      assert (Hev : new_events w
                (add_event (EvDbWrite (py "main_category") pk)
                   (set_db_categories (<[pk:=self']> (db_categories w)) w))
              = [EvDbWrite (py "main_category") pk]).
      { unfold new_events, add_event, set_db_categories. cbn [trace].
        now rewrite skipn_app, skipn_all, Nat.sub_diag. }
      rewrite Hev. repeat split; try reflexivity.
      * intros _. exists pk. repeat split.
        intros k Hk. cbn [add_event set_db_categories db_categories].
        now apply lookup_insert_ne.
      * intros H. now contradiction H.
  - intros [= <- <- <-]. rewrite new_events_same. repeat split; try reflexivity. discriminate.
Qed.

(** X4.  Names are unique: when another row already has the name of the
    object, [Item.save] and [Category.save] raise, the database is left as
    it was and, for an item, nobody is notified. *)
Theorem duplicate_name_is_refused env :
  (forall (self : ItemFields.t) w k other,
      db_items w !! k = Some other ->
      ItemFields.item_name other = ItemFields.item_name self ->
      ItemFields.id self <> Some k ->
      exists e, fst (fst (Item.save env self w)) = Raise e
                /\ snd (Item.save env self w) = w)
  /\ (forall (self : CategoryFields.t) w k other,
        db_categories w !! k = Some other ->
        CategoryFields.category_name other = CategoryFields.category_name self ->
        CategoryFields.id self <> Some k ->
        exists e, fst (fst (Category.save env self w)) = Raise e
                  /\ snd (Category.save env self w) = w).
Proof.
  split.
  - intros self w k other Hk Hname Hid. rewrite save_run.
    destruct (resize_image env _ _) as [thumbnail|e]; [|now exists e].
    unfold Item.Model_save, Item.violation.
    destruct (enforces_max_length env && _); [now eexists|].
    unfold derived.
    cbn [ItemFields.id ItemFields.item_name ItemFields.set_item_slug
           ItemFields.set_image_thumbnail].
    rewrite (is_unique_taken ItemFields.item_name _ _ _ k other Hk Hname Hid).
    now eexists.
  - intros self w k other Hk Hname Hid.
    unfold Category.save, bind, attr, lift, assign.
    destruct (resize_image env _ _) as [resized|e]; [|now exists e].
    unfold Category.Model_save, Category.violation.
    destruct (enforces_max_length env && _); [now eexists|].
    cbn [CategoryFields.id CategoryFields.category_name CategoryFields.set_category_slug
           CategoryFields.set_image].
    rewrite (is_unique_taken CategoryFields.category_name _ _ _ k other Hk Hname Hid).
    now eexists.
Qed.

(** A new item saved beside two others, which stay as they are. *)
Lemma save_touches_one_row_witness :
  db_items (snd (Item.save Sample.env_ses_up Sample.leek_soup Sample.stocked_world)) !! 2
  = Some Sample.greek_salad
  /\ db_items Sample.stocked_world !! 3 = None.
Proof.
  destruct (save_touches_one_row Sample.env_ses_up Sample.leek_soup Sample.stocked_world
              _ _ _ (run_eta _)) as (_ & _ & Hother & Hnew).
  split.
  - rewrite (Hother 2); [vm_compute; reflexivity | vm_compute; discriminate].
  - apply (Hnew eq_refl). vm_compute. reflexivity.
Defined.

(** The category of soups saved again. *)
Lemma category_save_never_notifies_witness :
  new_events Sample.stocked_world (snd (Category.save Sample.env_ses_up Sample.soups Sample.stocked_world))
  = [EvDbWrite (py "main_category") 1].
Proof.
  destruct (category_save_never_notifies Sample.env_ses_up Sample.soups Sample.stocked_world
              _ _ _ (run_eta _)) as (_ & _ & _ & H & _).
  destruct H as (pk & Hev & Hid & _); [vm_compute; reflexivity|].
  rewrite Hev. vm_compute in Hid. now injection Hid as <-.
Defined.

(** A second Tomato Soup. *)
Lemma duplicate_name_is_refused_witness :
  snd (Item.save Sample.env_ses_up Sample.tomato_soup Sample.stocked_world) = Sample.stocked_world.
Proof.
  destruct (proj1 (duplicate_name_is_refused Sample.env_ses_up) Sample.tomato_soup
              Sample.stocked_world 1 Sample.saved_soup) as (e & _ & H).
  - vm_compute. reflexivity.
  - reflexivity.
  - discriminate.
  - exact H.
Defined.

(** ** More about slugs *)

Lemma lower_char_idempotent c : lower_char (lower_char c) = lower_char c.
Proof.
  unfold lower_char at 1. now rewrite lower_char_not_upper.
Qed.

Lemma lower_idempotent s : lower (lower s) = lower s.
Proof.
  unfold lower. rewrite List.map_map. apply List.map_ext. intros c. apply lower_char_idempotent.
Qed.

Lemma lower_ascii s : forallb is_ascii s = true -> forallb is_ascii (lower s) = true.
Proof.
  induction s as [|c t IH]; [easy|]. simpl.
  intros H. apply andb_true_iff in H as [Hc Ht]. rewrite (IH Ht), andb_true_r.
  clear IH Ht. char_cases.
Qed.

Lemma slugify_lower ud rel s :
  forallb is_ascii s = true -> slugify ud rel (lower s) = slugify ud rel s.
Proof.
  intros H. unfold slugify.
  rewrite (ascii_text_unchanged ud s H), (ascii_text_unchanged ud (lower s) (lower_ascii s H)).
  now rewrite lower_idempotent.
Qed.

(** X5.  Letter case is lost in the slug: two ASCII names that differ only
    in letter case have the same slug.  Hence an item whose name differs
    only in case from the name of a saved item cannot be saved, although
    the names are different: the slug is already taken. *)
Theorem names_differing_in_case_collide env :
  (forall a b,
      forallb is_ascii a = true -> forallb is_ascii b = true -> lower a = lower b ->
      slugify (unicode env) (slugify_release env) a
      = slugify (unicode env) (slugify_release env) b)
  /\ (forall (self : ItemFields.t) w k other,
        db_items w !! k = Some other ->
        ItemFields.item_slug other
        = slugify (unicode env) (slugify_release env) (ItemFields.item_name other) ->
        forallb is_ascii (ItemFields.item_name other) = true ->
        forallb is_ascii (ItemFields.item_name self) = true ->
        lower (ItemFields.item_name other) = lower (ItemFields.item_name self) ->
        ItemFields.id self <> Some k ->
        exists e, fst (fst (Item.save env self w)) = Raise e
                  /\ snd (Item.save env self w) = w).
Proof.
  assert (Hslug : forall a b,
      forallb is_ascii a = true -> forallb is_ascii b = true -> lower a = lower b ->
      slugify (unicode env) (slugify_release env) a
      = slugify (unicode env) (slugify_release env) b).
  { intros a b Ha Hb Hab.
    rewrite <- (slugify_lower _ _ a Ha), <- (slugify_lower _ _ b Hb). now rewrite Hab. }
  split; [exact Hslug|].
  intros self w k other Hk Hsaved Ho Hs Hlow Hid. rewrite save_run.
  destruct (resize_image env _ _) as [thumbnail|e]; [|now exists e].
  unfold Item.Model_save, Item.violation.
  destruct (enforces_max_length env && _); [now eexists|].
  destruct (negb (is_unique ItemFields.item_name _ _ _)); [now eexists|].
  unfold derived.
  cbn [ItemFields.id ItemFields.item_name ItemFields.item_slug ItemFields.set_item_slug
         ItemFields.set_image_thumbnail].
  rewrite (is_unique_taken ItemFields.item_slug _ _ _ k other Hk); [now eexists | | exact Hid].
  rewrite Hsaved. now apply Hslug.
Qed.

(** TOMATO SOUP after Tomato Soup. *)
Lemma names_differing_in_case_collide_witness :
  ItemFields.item_name Sample.shouted_soup <> ItemFields.item_name Sample.saved_soup
  /\ snd (Item.save Sample.env_ses_up Sample.shouted_soup Sample.stocked_world)
     = Sample.stocked_world.
Proof.
  split; [vm_compute; discriminate|].
  destruct (proj2 (names_differing_in_case_collide Sample.env_ses_up) Sample.shouted_soup
              Sample.stocked_world 1 Sample.saved_soup) as (e & _ & H).
  - vm_compute. reflexivity.
  - vm_compute. reflexivity.
  - vm_compute. reflexivity.
  - vm_compute. reflexivity.
  - vm_compute. reflexivity.
  - discriminate.
  - exact H.
Defined.

Lemma length_lstrip p s : (length (lstrip p s) <= length s)%nat.
Proof. induction s as [|c t IH]; simpl; [lia|]. destruct (p c); simpl; lia. Qed.

Lemma length_rstrip p s : (length (rstrip p s) <= length s)%nat.
Proof.
  induction s as [|c t IH]; simpl; [lia|].
  destruct (rstrip p t); [destruct (p c)|]; simpl in *; lia.
Qed.

Lemma length_collapse s : forall in_run, (length (re_sub_collapse in_run s) <= length s)%nat.
Proof.
  induction s as [|c t IH]; intros in_run; simpl; [lia|].
  destruct (is_sep c); [destruct in_run|]; simpl.
  - specialize (IH true). lia.
  - specialize (IH true). lia.
  - specialize (IH false). lia.
Qed.

Lemma length_drop s : (length (re_sub_drop s) <= length s)%nat.
Proof.
  unfold re_sub_drop. induction s as [|c t IH]; simpl; [lia|].
  destruct (is_word c || is_space c || (c =? HYPHEN)%N); simpl; lia.
Qed.

(** X6.  The slug of an ASCII name is never longer than the name, so that
    the slug of an ASCII name of at most 50 characters fits its column. *)
Theorem ascii_slug_is_not_longer ud rel name :
  forallb is_ascii name = true ->
  (length (slugify ud rel name) <= length name)%nat
  /\ ((length name <= 50)%nat ->
      too_long ItemFields.item_slug_max_length (slugify ud rel name) = false
      /\ too_long CategoryFields.category_slug_max_length (slugify ud rel name) = false).
Proof.
  intros H.
  assert (Hlen : (length (slugify ud rel name) <= length name)%nat).
  { unfold slugify, strip. rewrite (ascii_text_unchanged ud name H).
    pose proof (length_drop (lower name)) as Hd.
    unfold lower in Hd at 2. rewrite length_map in Hd.
    destruct rel.
    - pose proof (length_collapse (rstrip is_space (lstrip is_space (re_sub_drop (lower name)))) false).
      pose proof (length_rstrip is_space (lstrip is_space (re_sub_drop (lower name)))).
      pose proof (length_lstrip is_space (re_sub_drop (lower name))). lia.
    - pose proof (length_collapse (re_sub_drop (lower name)) false).
      pose proof (length_rstrip is_dash_or_underscore
                    (lstrip is_dash_or_underscore (re_sub_collapse false (re_sub_drop (lower name))))).
      pose proof (length_lstrip is_dash_or_underscore
                    (re_sub_collapse false (re_sub_drop (lower name)))). lia. }
  split; [exact Hlen|].
  intros H50. unfold too_long, ItemFields.item_slug_max_length,
    CategoryFields.category_slug_max_length.
  split; apply Nat.ltb_ge; lia.
Qed.

(** The slug of Tomato Soup. *)
Lemma ascii_slug_is_not_longer_witness :
  (length (slugify Sample.tables StripsDashes (py "Tomato Soup")) <= 11)%nat.
Proof.
  exact (proj1 (ascii_slug_is_not_longer Sample.tables StripsDashes (py "Tomato Soup") eq_refl)).
Defined.

(** ** The view counter and the object *)

(** X7.  [increment_views] counts in the object before it saves: the
    object has one view more even when the save raises, and when nothing
    was written the database still has the old count. *)
Theorem increment_views_counts_before_saving env self w r self' w' :
  Item.increment_views env self w = (r, self', w') ->
  ItemFields.views self' = ItemFields.views self + 1
  /\ (new_events w w' = [] -> w' = w /\ r <> Ok tt).
Proof.
  intros Hrun.
  change (Item.increment_views env self w)
    with (Item.save env (ItemFields.set_views (ItemFields.views self + 1) self) w) in Hrun.
  destruct (save_outcome _ _ _ _ _ _ Hrun)
    as [(e1 & _ & -> & -> & ->) | [(th & e1 & _ & _ & -> & -> & ->) | (th & pk & _ & _ & _ & -> & _ & ->)]].
  - split; [reflexivity|]. intros _. split; [reflexivity | discriminate].
  - split; [reflexivity|]. intros _. split; [reflexivity | discriminate].
  - split; [reflexivity|]. rewrite new_events_written. discriminate.
Qed.

(** A view of an item that cannot be saved. *)
Lemma increment_views_counts_before_saving_witness :
  ItemFields.views
    (snd (fst (Item.increment_views Sample.env_ses_up Sample.shouted_soup Sample.stocked_world)))
  = 1
  /\ snd (Item.increment_views Sample.env_ses_up Sample.shouted_soup Sample.stocked_world)
     = Sample.stocked_world.
Proof.
  destruct (increment_views_counts_before_saving Sample.env_ses_up Sample.shouted_soup
              Sample.stocked_world _ _ _ (run_eta _)) as (Hv & Hw).
  split; [exact Hv|]. apply Hw. vm_compute. reflexivity.
Defined.

Lemma count_events_app p a b :
  count_events p (a ++ b) = (count_events p a + count_events p b)%nat.
Proof. unfold count_events. now rewrite List.filter_app, length_app. Qed.

Lemma new_events_twice evs1 evs2 m2 w w1 :
  trace w1 = trace w ++ evs1 ->
  new_events w (add_events evs2 (set_db_items m2 w1)) = evs1 ++ evs2.
Proof.
  intros H. unfold new_events, add_events, set_db_items. cbn [trace].
  rewrite H, <- app_assoc, skipn_app, skipn_all, Nat.sub_diag. reflexivity.
Qed.

(** X8.  Every view is a save and every save notifies: after two calls of
    [increment_views] that return, the object has two views more, it is
    still the same row, and the notifier has been invoked twice. *)
Theorem increment_views_twice env self w self1 w1 self2 w2 :
  Item.increment_views env self w = (Ok tt, self1, w1) ->
  Item.increment_views env self1 w1 = (Ok tt, self2, w2) ->
  ItemFields.views self2 = ItemFields.views self + 2
  /\ ItemFields.id self2 = ItemFields.id self1
  /\ (exists pk, ItemFields.id self2 = Some pk /\ db_items w2 !! pk = Some self2)
  /\ count_events is_notifier_invocation (new_events w w2) = 2%nat.
Proof.
  intros H1 H2.
  change (Item.increment_views env self w)
    with (Item.save env (ItemFields.set_views (ItemFields.views self + 1) self) w) in H1.
  change (Item.increment_views env self1 w1)
    with (Item.save env (ItemFields.set_views (ItemFields.views self1 + 1) self1) w1) in H2.
  destruct (save_outcome _ _ _ _ _ _ H1)
    as [(e1 & _ & [=] & _) | [(th & e1 & _ & _ & [=] & _) | (th1 & pk1 & _ & _ & _ & Hs1 & _ & Hw1)]].
  destruct (save_outcome _ _ _ _ _ _ H2)
    as [(e1 & _ & [=] & _) | [(th & e1 & _ & _ & [=] & _) | (th2 & pk2 & _ & _ & Hpk2 & Hs2 & _ & Hw2)]].
  assert (Hpk : pk2 = pk1) by (rewrite Hpk2, Hs1; reflexivity).
  split; [rewrite Hs2, Hs1; cbn; lia|].
  split; [rewrite Hs2, Hs1, Hpk; reflexivity|].
  split.
  - exists pk2. split; [now rewrite Hs2|]. rewrite Hw2.
    cbn [add_events set_db_items db_items]. apply lookup_insert_eq.
  - destruct (notifier_run_events env self1 w) as (rest1 & E1 & Hc1 & _).
    destruct (notifier_run_events env self2 w1) as (rest2 & E2 & Hc2 & _).
    assert (Htrace : trace w1 = trace w ++ EvDbWrite (py "main_item") pk1
                                  :: EvBoto3Client (py "ses") :: rest1)
      by (rewrite Hw1, E1; reflexivity).
    rewrite Hw2, E2, (new_events_twice _ _ _ w w1 Htrace), count_events_app.
    unfold count_events in *. cbn. now rewrite Hc1, Hc2.
Qed.

(** Two views of a new item. *)
Lemma increment_views_twice_witness :
  ItemFields.views
    (snd (fst (Item.increment_views Sample.env_ses_up
                 (snd (fst (Item.increment_views Sample.env_ses_up Sample.tomato_soup Sample.world)))
                 (snd (Item.increment_views Sample.env_ses_up Sample.tomato_soup Sample.world)))))
  = 0 + 2.
Proof.
  refine (proj1 (increment_views_twice Sample.env_ses_up Sample.tomato_soup Sample.world
                   _ _ _ _ _ _)).
  - vm_compute. reflexivity.
  - vm_compute. reflexivity.
Defined.

(** X9.  A save that raises before anything was written leaves the
    database alone, and leaves the object in one of two states: untouched,
    when the image helper raised; or, when the database refused the row,
    already carrying the derived slug and thumbnail, with the primary key
    it had. *)
Theorem refused_save_and_the_object env self w e self' w' :
  Item.save env self w = (Raise e, self', w') ->
  new_events w w' = [] ->
  w' = w
  /\ ((resize_image env (ItemFields.image self) (Some THUMBNAIL_SUFFIX) = Raise e
       /\ self' = self)
      \/ (exists thumbnail,
            resize_image env (ItemFields.image self) (Some THUMBNAIL_SUFFIX) = Ok thumbnail
            /\ Item.violation env self' w = Some e
            /\ ItemFields.id self' = ItemFields.id self
            /\ ItemFields.image_thumbnail self' = thumbnail
            /\ ItemFields.item_slug self'
               = slugify (unicode env) (slugify_release env) (ItemFields.item_name self))).
Proof.
  intros Hsave Hev.
  destruct (save_outcome _ _ _ _ _ _ Hsave)
    as [(e1 & Hres & [= <-] & -> & ->) | [(th & e1 & Hres & Hv & [= <-] & -> & ->) | (th & pk & _ & _ & _ & _ & _ & ->)]].
  - split; [reflexivity|]. now left.
  - split; [reflexivity|]. right. exists th. repeat split; assumption.
  - rewrite new_events_written in Hev. discriminate.
Qed.

(** The refused item has its slug. *)
Lemma refused_save_and_the_object_witness :
  ItemFields.item_slug
    (snd (fst (Item.save Sample.env_ses_up Sample.shouted_soup Sample.stocked_world)))
  = py "tomato-soup".
Proof.
  destruct (refused_save_and_the_object Sample.env_ses_up Sample.shouted_soup
              Sample.stocked_world
              (IntegrityError (py "duplicate key value violates unique constraint on item_slug"))
              _ _ (run_eta _)) as (_ & [(H & _) | (th & _ & _ & _ & _ & H)]).
  - vm_compute. reflexivity.
  - vm_compute in H. discriminate.
  - rewrite H. vm_compute. reflexivity.
Defined.

(** ** The request to the email service *)

Lemma destinations_addressed env self w destinations :
  destinations_of env self w = Ok destinations ->
  Forall2 (fun (user : User.t) (d : Destination) => ToAddresses d = [User.email user])
    (db_users w) destinations.
Proof.
  apply (destinations_each env self w). intros user d Hd.
  unfold Item.destination, bind in Hd.
  destruct (Item.template_data env user self w) as [[[data|e] self1] w1]; [|discriminate].
  unfold ret in Hd. now injection Hd as <-.
Qed.

(** What the trace of a save says when the service was called. *)
Lemma service_called env self w r self' w' request :
  Item.save env self w = (r, self', w') ->
  In (EvSendBulk request) (new_events w w') ->
  exists pk destinations log,
    destinations_of env self' w = Ok destinations
    /\ request = Item.bulk_request env destinations
    /\ Item.arn_set env = true
    /\ r = Ok tt
    /\ new_events w w'
       = [EvDbWrite (py "main_item") pk; EvBoto3Client (py "ses"); EvSendBulk request; log]
    /\ log = match send_bulk_templated_email env request with
             | Ok response =>
                 EvLog INFO (py "SES notification was successful. response: " ++ response)
             | Raise e =>
                 EvLog ERROR (py "Failed to send SES email notification: " ++ exc_repr e)
             end.
Proof.
  intros Hsave Hin.
  destruct (save_outcome _ _ _ _ _ _ Hsave)
    as [(e1 & _ & _ & _ & ->) | [(th & e1 & _ & _ & _ & _ & ->) | (th & pk & _ & _ & _ & _ & Hr & ->)]];
    try (rewrite new_events_same in Hin; contradiction).
  rewrite new_events_written in *. rewrite Hr. clear Hr.
  destruct Hin as [Hin|Hin]; [discriminate|].
  unfold notifier_run in *.
  destruct (boto3_client env (py "ses")) as [[]|e1];
    [|destruct Hin as [Hin|[]]; discriminate].
  destruct (destinations_of env self' w) as [ds|e1];
    [|destruct Hin as [Hin|[]]; discriminate].
  destruct (Item.arn_set env);
    [|destruct Hin as [Hin|[Hin|[]]]; discriminate].
  exists pk, ds.
  destruct (send_bulk_templated_email env (Item.bulk_request env ds)) as [resp|e1] eqn:Es;
    destruct Hin as [Hin|[Hin|[Hin|[]]]]; try discriminate;
    injection Hin as <-; rewrite Es; eexists; repeat split.
Qed.

(** X10.  A save calls the email service once at most, and the request of
    that call has one destination for each registered user, in the order
    of the directory, addressed to the email of that user alone; its
    [SourceArn] is the configured identity, which is not empty. *)
Theorem bulk_request_has_one_destination_per_user env self w r self' w' request :
  Item.save env self w = (r, self', w') ->
  In (EvSendBulk request) (new_events w w') ->
  Forall2 (fun (user : User.t) (d : Destination) => ToAddresses d = [User.email user])
    (db_users w) (Destinations request)
  /\ length (Destinations request) = length (db_users w)
  /\ SES_IDENTITY_ARN env = Some (SourceArn request)
  /\ str_truthy (SourceArn request) = true
  /\ count_events is_ses_call (new_events w w') = 1%nat.
Proof.
  intros Hsave Hin.
  destruct (service_called _ _ _ _ _ _ _ Hsave Hin)
    as (pk & ds & log & Hds & -> & Harn & _ & -> & ->).
  pose proof (destinations_addressed _ _ _ _ Hds) as Hall.
  split; [exact Hall|]. split; [symmetry; exact (Forall2_length _ _ _ Hall)|].
  unfold Item.arn_set in Harn. cbn [Item.bulk_request SourceArn].
  destruct (SES_IDENTITY_ARN env) as [arn|]; [|discriminate].
  split; [reflexivity|]. split; [exact Harn|].
  destruct (send_bulk_templated_email env _); reflexivity.
Qed.

(** The request of the sample save has two destinations. *)
Lemma bulk_request_has_one_destination_per_user_witness :
  exists request,
    In (EvSendBulk request)
      (new_events Sample.world (snd (Item.save Sample.env_ses_up Sample.tomato_soup Sample.world)))
    /\ length (Destinations request) = 2%nat.
Proof.
  eexists. split.
  - vm_compute. right. right. left. reflexivity.
  - refine (proj1 (proj2 (bulk_request_has_one_destination_per_user Sample.env_ses_up
                            Sample.tomato_soup Sample.world _ _ _ _ (run_eta _) _))).
    vm_compute. right. right. left. reflexivity.
Defined.

(** X11.  With nobody registered nothing can go wrong while the
    destinations are built, whatever the thumbnail is; and if an identity
    is configured the email service is called all the same, with an empty
    list of destinations. *)
Theorem empty_directory_still_calls_service env self w r self' w' pk :
  db_users w = [] ->
  Item.save env self w = (r, self', w') ->
  In (EvDbWrite (py "main_item") pk) (new_events w w') ->
  is_ok (boto3_client env (py "ses")) = true ->
  r = Ok tt
  /\ (Item.arn_set env = true ->
      In (EvSendBulk (Item.bulk_request env [])) (new_events w w'))
  /\ (Item.arn_set env = false -> count_events is_ses_call (new_events w w') = 0%nat).
Proof.
  intros Hu Hsave Hin Hb.
  destruct (save_outcome _ _ _ _ _ _ Hsave)
    as [(e1 & _ & _ & _ & ->) | [(th & e1 & _ & _ & _ & _ & ->) | (th & pk' & _ & _ & _ & _ & Hr & ->)]];
    try (rewrite new_events_same in Hin; contradiction).
  rewrite new_events_written in *. rewrite Hr. clear Hr Hin.
  assert (Hds : destinations_of env self' w = Ok []).
  { unfold destinations_of. now rewrite Hu. }
  unfold notifier_run. rewrite Hds.
  destruct (boto3_client env (py "ses")) as [[]|]; [|discriminate].
  destruct (Item.arn_set env).
  - destruct (send_bulk_templated_email env (Item.bulk_request env [])); cbn [fst snd];
      (split; [reflexivity|]; split; [intros _; right; right; now left | discriminate]).
  - cbn [fst snd]. split; [reflexivity|]. split; [discriminate | reflexivity].
Qed.

(** An item without image, saved when nobody is registered. *)
Lemma empty_directory_still_calls_service_witness :
  fst (fst (Item.save Sample.env_ses_up Sample.imageless_soup Sample.world_without_users))
  = Ok tt
  /\ In (EvSendBulk (Item.bulk_request Sample.env_ses_up []))
       (new_events Sample.world_without_users
          (snd (Item.save Sample.env_ses_up Sample.imageless_soup Sample.world_without_users))).
Proof.
  destruct (empty_directory_still_calls_service Sample.env_ses_up Sample.imageless_soup
              Sample.world_without_users _ _ _ 1 eq_refl (run_eta _)) as (Hr & Hs & _).
  - vm_compute. left. reflexivity.
  - reflexivity.
  - split; [exact Hr | exact (Hs eq_refl)].
Defined.

(** X12.  When the email service answers the request, the answer is
    logged at info level, nothing is logged at error level, and the save
    returns. *)
Theorem service_answer_is_logged env self w r self' w' request response :
  Item.save env self w = (r, self', w') ->
  In (EvSendBulk request) (new_events w w') ->
  send_bulk_templated_email env request = Ok response ->
  r = Ok tt
  /\ exists pk,
       new_events w w'
       = [EvDbWrite (py "main_item") pk; EvBoto3Client (py "ses"); EvSendBulk request;
          EvLog INFO (py "SES notification was successful. response: " ++ response)].
Proof.
  intros Hsave Hin Hok.
  destruct (service_called _ _ _ _ _ _ _ Hsave Hin)
    as (pk & ds & log & _ & _ & _ & -> & -> & ->).
  split; [reflexivity|]. exists pk. now rewrite Hok.
Qed.

(** The sample service accepts the request. *)
Lemma service_answer_is_logged_witness :
  fst (fst (Item.save Sample.env_ses_up Sample.tomato_soup Sample.world)) = Ok tt.
Proof.
  eapply (service_answer_is_logged Sample.env_ses_up Sample.tomato_soup Sample.world
            _ _ _ _ _ (run_eta _)).
  - vm_compute. right. right. left. reflexivity.
  - reflexivity.
Defined.

(** ** The template data *)

Lemma forallb_flat_map {A B} (q : B -> bool) (f : A -> list B) l :
  (forall x, forallb q (f x) = true) -> forallb q (List.flat_map f l) = true.
Proof.
  intros H. induction l as [|x t IH]; [reflexivity|].
  simpl. now rewrite forallb_app, H, IH.
Qed.

Lemma hex_digit_printable n : (n < 16)%N -> is_printable (hex_digit n) = true.
Proof.
  intros H. unfold is_printable, hex_digit.
  destruct (N.ltb_spec n 10); apply andb_true_iff; split; apply N.leb_le; lia.
Qed.

Lemma u_escape_printable n : forallb is_printable (u_escape n) = true.
Proof.
  unfold u_escape. cbn [forallb].
  rewrite !hex_digit_printable by (apply N.mod_lt; discriminate). reflexivity.
Qed.

Lemma json_escape_char_printable c : forallb is_printable (json_escape_char c) = true.
Proof.
  unfold json_escape_char.
  repeat match goal with
         | |- context [if ?b then _ else _] => destruct b eqn:?
         end; try reflexivity.
  - cbn [forallb]. now rewrite andb_true_r.
  - apply u_escape_printable.
  - now rewrite forallb_app, !u_escape_printable.
Qed.

Lemma json_string_printable s : forallb is_printable (json_string s) = true.
Proof.
  unfold json_string. rewrite !forallb_app.
  now rewrite (forallb_flat_map is_printable json_escape_char s json_escape_char_printable).
Qed.

Lemma join_printable sep l :
  forallb is_printable sep = true ->
  Forall (fun x => forallb is_printable x = true) l ->
  forallb is_printable (join sep l) = true.
Proof.
  intros Hsep H. induction H as [|x t Hx Ht IH]; [reflexivity|].
  destruct t as [|y t]; [exact Hx|].
  change (join sep (x :: y :: t)) with (x ++ sep ++ join sep (y :: t)).
  now rewrite !forallb_app, Hx, Hsep, IH.
Qed.

Lemma json_dumps_printable d : forallb is_printable (json_dumps d) = true.
Proof.
  unfold json_dumps. rewrite !forallb_app.
  rewrite join_printable; [reflexivity | reflexivity |].
  apply List.Forall_forall. intros x Hx. apply in_map_iff in Hx as ((k & v) & <- & _).
  now rewrite !forallb_app, !json_string_printable.
Qed.

(** X13.  The template data sent for a recipient are printable ASCII,
    from the space to the tilde, whatever characters the names of the item
    and of the user have. *)
Theorem template_data_is_printable_ascii env self w destinations :
  destinations_of env self w = Ok destinations ->
  forall d, In d destinations -> forallb is_printable (ReplacementTemplateData d) = true.
Proof.
  intros H.
  assert (Hall : Forall2 (fun (_ : User.t) (d : Destination) =>
                            forallb is_printable (ReplacementTemplateData d) = true)
                   (db_users w) destinations).
  { apply (destinations_each env self w); [|exact H].
    intros user d Hd. unfold Item.destination, bind in Hd.
    destruct (Item.template_data env user self w) as [[[data|e] self1] w1]; [|discriminate].
    unfold ret in Hd. injection Hd as <-. apply json_dumps_printable. }
  clear H. induction Hall as [|u d us ds Hd _ IH]; intros d' Hin; [contradiction|].
  destruct Hin as [<-|Hin]; [exact Hd | now apply IH].
Qed.

(** The data of the sample destinations. *)
Lemma template_data_is_printable_ascii_witness :
  forallb (fun d => forallb is_printable (ReplacementTemplateData d))
    (match destinations_of Sample.env_ses_up Sample.saved_soup Sample.world with
     | Ok ds => ds
     | Raise _ => []
     end)
  = true.
Proof.
  apply forallb_forall.
  apply (template_data_is_printable_ascii Sample.env_ses_up Sample.saved_soup Sample.world).
  vm_compute. reflexivity.
Defined.

(** ** Paths have single slashes *)

Lemma no_double_slash_cons a s :
  no_double_slash (a :: s)
  = negb ((a =? SLASH)%N && (List.hd 0%N s =? SLASH)%N) && no_double_slash s.
Proof. destruct s; simpl; [now rewrite andb_false_r | reflexivity]. Qed.

Lemma no_double_slash_app a b :
  no_double_slash a = true -> no_double_slash b = true ->
  (List.last a 0%N =? SLASH)%N && (List.hd 0%N b =? SLASH)%N = false ->
  no_double_slash (a ++ b) = true.
Proof.
  induction a as [|x a IH]; intros Ha Hb Hj; [exact Hb|].
  rewrite no_double_slash_cons in Ha. apply andb_true_iff in Ha as [Hx Ha].
  change ((x :: a) ++ b) with (x :: a ++ b). rewrite no_double_slash_cons.
  destruct a as [|y a].
  - cbn [app List.last List.hd] in *. now rewrite Hj, Hb.
  - rewrite IH; [|exact Ha|exact Hb|exact Hj].
    cbn [app List.hd] in *. now rewrite Hx.
Qed.

Lemma no_double_slash_tl s : no_double_slash s = true -> no_double_slash (List.tl s) = true.
Proof.
  destruct s as [|a s]; [easy|]. rewrite no_double_slash_cons.
  intros H. now apply andb_true_iff in H.
Qed.

Lemma component_single_slashes x :
  is_component x = true ->
  no_double_slash x = true
  /\ (List.hd 0%N x =? SLASH)%N = false
  /\ (List.last x 0%N =? SLASH)%N = false
  /\ x <> [].
Proof.
  unfold is_component. intros H. apply andb_true_iff in H as [Hne Hfree].
  apply negb_true_iff in Hfree.
  destruct x as [|a x]; [discriminate|]. clear Hne.
  assert (forall s, existsb (fun c => (c =? SLASH)%N) s = false ->
                    no_double_slash s = true /\ forall d, (d =? SLASH)%N = false ->
                      (List.hd d s =? SLASH)%N = false /\ (List.last s d =? SLASH)%N = false)
    as Hgen.
  { induction s as [|c s IH]; [easy|].
    intros H. cbn [existsb] in H. apply orb_false_iff in H as [Hc Hs].
    destruct (IH Hs) as [I1 I2]. split.
    - rewrite no_double_slash_cons, Hc, I1. reflexivity.
    - intros d Hd. split; [exact Hc|].
      destruct s as [|c' s]; [exact Hc|].
      change (List.last (c :: c' :: s) d) with (List.last (c' :: s) d).
      now apply I2. }
  destruct (Hgen _ Hfree) as [H1 H2]. destruct (H2 0%N eq_refl) as [H3 H4].
  repeat split; try assumption. discriminate.
Qed.

Lemma join_single_slashes ps :
  forallb is_component ps = true ->
  no_double_slash (join [SLASH] ps) = true
  /\ (List.hd 0%N (join [SLASH] ps) =? SLASH)%N = false
  /\ (List.last (join [SLASH] ps) 0%N =? SLASH)%N = false
  /\ (ps <> [] -> join [SLASH] ps <> []).
Proof.
  induction ps as [|x t IH]; [easy|].
  intros H. cbn [forallb] in H. apply andb_true_iff in H as [Hx Ht].
  destruct (component_single_slashes x Hx) as (X1 & X2 & X3 & X4).
  destruct t as [|y t]; [now repeat split|].
  destruct (IH Ht) as (J1 & J2 & J3 & J4). specialize (J4 ltac:(discriminate)).
  change (join [SLASH] (x :: y :: t)) with (x ++ SLASH :: join [SLASH] (y :: t)).
  set (J := join [SLASH] (y :: t)) in *.
  repeat split.
  - apply no_double_slash_app; [exact X1 | | now rewrite X3].
    rewrite no_double_slash_cons, J1, J2. now rewrite andb_false_r.
  - destruct x; [contradiction | exact X2].
  - rewrite last_app_nonempty by discriminate.
    destruct J; [contradiction | exact J3].
  - intros _. destruct x; [contradiction | discriminate].
Qed.

Lemma split_slash_free s :
  forallb (fun x => negb (existsb (fun c => (c =? SLASH)%N) x)) (split SLASH s) = true.
Proof.
  induction s as [|c t IH]; [reflexivity|].
  cbn [split]. destruct (c =? SLASH)%N eqn:E; [exact IH|].
  destruct (split SLASH t) as [|h r]; cbn [forallb existsb] in *; [now rewrite E|].
  now rewrite E.
Qed.

Lemma path_components s : forallb is_component (parts (Path s)) = true.
Proof.
  unfold Path. cbn [parts].
  pose proof (split_slash_free (lstrip (N.eqb SLASH) s)) as H.
  induction (split SLASH (lstrip (N.eqb SLASH) s)) as [|x t IH]; [reflexivity|].
  cbn [forallb] in H. apply andb_true_iff in H as [Hx Ht].
  cbn [List.filter]. destruct (negb (str_eqb x [] || str_eqb x [DOT])) eqn:E; [|now apply IH].
  cbn [forallb]. rewrite (IH Ht), andb_true_r. unfold is_component. rewrite Hx, andb_true_r.
  destruct x; [discriminate | reflexivity].
Qed.

Lemma forallb_removelast {A} (q : A -> bool) l :
  forallb q l = true -> forallb q (removelast l) = true.
Proof.
  induction l as [|x t IH]; [easy|].
  intros H. cbn [forallb] in H. apply andb_true_iff in H as [Hx Ht].
  destruct t; [reflexivity|].
  change (removelast (x :: a :: t)) with (x :: removelast (a :: t)).
  cbn [forallb]. now rewrite Hx, IH.
Qed.

Lemma forallb_last_elem {A} (q : A -> bool) l d :
  forallb q l = true -> l <> [] -> q (List.last l d) = true.
Proof.
  induction l as [|x t IH]; [easy|].
  intros H _. cbn [forallb] in H. apply andb_true_iff in H as [Hx Ht].
  destruct t; [exact Hx|]. now apply IH.
Qed.

Lemma firstn_component k x :
  is_component x = true -> (0 < k)%nat -> is_component (firstn k x) = true.
Proof.
  unfold is_component. intros H Hk. apply andb_true_iff in H as [Hne Hfree].
  apply andb_true_iff. split.
  - destruct x; [discriminate|]. destruct k; [lia | reflexivity].
  - apply negb_true_iff. apply negb_true_iff in Hfree. clear Hne Hk.
    revert k. induction x as [|c x IH]; intros k; [now destruct k|].
    destruct k; [reflexivity|]. cbn [firstn existsb] in *.
    apply orb_false_iff in Hfree as [Hc Hx]. now rewrite Hc, IH.
Qed.

(** [with_suffix] with the empty suffix leaves components. *)
Lemma with_suffix_components p q :
  forallb is_component (parts p) = true ->
  with_suffix p [] = Ok q ->
  root q = root p /\ forallb is_component (parts q) = true /\ parts q <> [].
Proof.
  intros Hp. unfold with_suffix. cbn [existsb str_truthy orb andb].
  change (str_eqb [] [DOT]) with false. cbn [orb].
  destruct (negb (str_truthy (Path_name p))) eqn:Hname; [discriminate|].
  intros [= <-]. cbn [root parts]. split; [reflexivity|].
  split; [|now destruct (removelast (parts p))].
  apply negb_false_iff in Hname.
  assert (Hparts : parts p <> []).
  { intros E. unfold Path_name in Hname. now rewrite E in Hname. }
  assert (Hlast : is_component (Path_name p) = true)
    by (apply forallb_last_elem; assumption).
  rewrite forallb_app, (forallb_removelast _ _ Hp). cbn [forallb andb].
  rewrite andb_true_r, !app_nil_r.
  destruct (negb (str_truthy (suffix (Path_name p)))) eqn:Hs; [exact Hlast|].
  apply firstn_component; [exact Hlast|].
  apply negb_false_iff in Hs. unfold suffix in *.
  destruct (rfind DOT (Path_name p)) as [i|]; [|discriminate].
  destruct (Nat.ltb_spec 0 i); [|discriminate].
  destruct (Nat.ltb_spec i (length (Path_name p) - 1)); [|discriminate].
  cbn [andb]. rewrite length_skipn. lia.
Qed.

Lemma path_root s : root (Path s) = [] \/ root (Path s) = [SLASH] \/ root (Path s) = [SLASH; SLASH].
Proof.
  unfold Path. cbn [root].
  destruct (Nat.eqb _ 0); [now left|]. destruct (Nat.eqb _ 2); [now right; right | now right; left].
Qed.

(** X14.  The thumbnail URL of the template data is written by [pathlib]:
    after its first character it never has two slashes in a row.  The two
    slashes that follow the scheme of an absolute URL of the storage are
    therefore reduced to one. *)
Theorem thumbnail_url_has_single_slashes env user self w data :
  fst (fst (Item.template_data env user self w)) = Ok data ->
  exists value,
    dict_get (py "recette_image_url_path") data = Some value
    /\ no_double_slash (List.tl value) = true.
Proof.
  unfold Item.template_data, bind, attr, lift, ret, Item.related_category.
  destruct (db_categories w !! ItemFields.category_name self) as [category|]; [|discriminate].
  destruct (FieldFile.url _ _ _) as [url|]; [|discriminate].
  destruct (with_suffix (Path url) []) as [stem|] eqn:Es; [|discriminate].
  intros [= <-]. exists (Path_str stem ++ THUMBNAIL_SUFFIX ++ py ".jpg").
  split; [reflexivity|].
  destruct (with_suffix_components _ _ (path_components url) Es) as (Hroot & Hparts & Hne).
  destruct (join_single_slashes _ Hparts) as (J1 & J2 & J3 & J4). specialize (J4 Hne).
  assert (Htail : no_double_slash (join [SLASH] (parts stem) ++ THUMBNAIL_SUFFIX ++ py ".jpg") = true).
  { apply no_double_slash_app; [exact J1 | reflexivity | now rewrite J3]. }
  assert (Hstr : Path_str stem = root stem ++ join [SLASH] (parts stem)).
  { unfold Path_str. destruct (root stem); [|reflexivity].
    destruct (parts stem); [contradiction | reflexivity]. }
  rewrite Hstr, Hroot, <- app_assoc.
  assert (Hhd : (List.hd 0%N (join [SLASH] (parts stem) ++ THUMBNAIL_SUFFIX ++ py ".jpg")
                 =? SLASH)%N = false).
  { destruct (join [SLASH] (parts stem)); [contradiction | exact J2]. }
  remember (join [SLASH] (parts stem) ++ THUMBNAIL_SUFFIX ++ py ".jpg") as rest.
  destruct (path_root url) as [-> | [-> | ->]].
  - apply no_double_slash_tl. exact Htail.
  - exact Htail.
  - cbn [app List.tl]. rewrite no_double_slash_cons, Htail, andb_true_r.
    now rewrite Hhd, andb_false_r.
Qed.

(** A storage that serves the files from another host. *)
Lemma thumbnail_url_has_single_slashes_witness :
  FieldFile.url (storage_url Sample.env_cdn) (py "image_thumbnail")
    (ItemFields.image_thumbnail Sample.saved_soup)
  = Ok (py "https://cdn.example.org/uploads/soup_resized.jpg")
  /\ exists data,
       fst (fst (Item.template_data Sample.env_cdn Sample.ann Sample.saved_soup Sample.world))
       = Ok data
       /\ dict_get (py "recette_image_url_path") data
          = Some (py "https:/cdn.example.org/uploads/soup_resized_resized.jpg")
       /\ no_double_slash (List.tl (py "https:/cdn.example.org/uploads/soup_resized_resized.jpg"))
          = true.
Proof.
  split; [vm_compute; reflexivity|].
  eexists. split; [vm_compute; reflexivity|].
  destruct (thumbnail_url_has_single_slashes Sample.env_cdn Sample.ann Sample.saved_soup
              Sample.world _ eq_refl) as (value & Hv & Hs).
  split; [vm_compute; reflexivity|].
  vm_compute in Hv. injection Hv as <-. exact Hs.
Defined.

(** ** Saving again, and printing *)



(** X16.  After a save that returns, [repr] of the object shows the
    primary key of its row, never [None], then the name and the slug
    derived from the name, and [str] of the object is the name. *)
Theorem repr_after_save env :
  (forall (self : ItemFields.t) w self' w',
      Item.save env self w = (Ok tt, self', w') ->
      exists pk,
        db_items w' !! pk = Some self'
        /\ Item.__repr__ self'
           = py "Item=(id=" ++ int_str pk
             ++ py ",item_name=" ++ ItemFields.item_name self
             ++ py ",item_slug="
             ++ slugify (unicode env) (slugify_release env) (ItemFields.item_name self)
             ++ py ")"
        /\ Item.__str__ self' = ItemFields.item_name self)
  /\ (forall (self : CategoryFields.t) w self' w',
        Category.save env self w = (Ok tt, self', w') ->
        exists pk,
          db_categories w' !! pk = Some self'
          /\ Category.__repr__ self'
             = py "Category=(id=" ++ int_str pk
               ++ py ",category_name=" ++ CategoryFields.category_name self
               ++ py ",category_slug="
               ++ slugify (unicode env) (slugify_release env) (CategoryFields.category_name self)
               ++ py ")"
          /\ Category.__str__ self' = CategoryFields.category_name self).
Proof.
  split.
  - intros self w self' w' H.
    destruct (save_derives _ _ _ _ _ H) as (th & pk & _ & Hself & Hrow).
    exists pk. split; [exact Hrow|]. rewrite Hself. split; reflexivity.
  - intros self w self' w' H.
    destruct (category_save_derives _ _ _ _ _ H) as (r & pk & _ & Hself & Hrow).
    exists pk. split; [exact Hrow|]. rewrite Hself. split; reflexivity.
Qed.

(** The sample item, printed before and after its save. *)
Lemma repr_after_save_witness :
  Item.__repr__ Sample.tomato_soup = py "Item=(id=None,item_name=Tomato Soup,item_slug=)"
  /\ exists pk,
       Item.__repr__ (snd (fst (Item.save Sample.env_ses_up Sample.tomato_soup Sample.world)))
       = py "Item=(id=" ++ int_str pk ++ py ",item_name=Tomato Soup,item_slug=tomato-soup)".
Proof.
  split; [vm_compute; reflexivity|].
  destruct (proj1 (repr_after_save Sample.env_ses_up) Sample.tomato_soup Sample.world
              _ _ (run_eta _)) as (pk & _ & Hrepr & _).
  exists pk. rewrite Hrepr. reflexivity.
Defined.
